(** * Row-level security and notification triggers of the recruitment schema

    A shallow embedding of the SQL migrations under [supabase/migrations]:
    the tables the policies and triggers read or write, every policy with
    the tables its subqueries select from and its value on a row, every
    trigger function as a function in an error monad over the database,
    and the statements the client issues (insert / update / delete by
    primary key) as the sequence the engine runs: the rewriter expands the
    policies of the tables of the statement, then policy check,
    constraints, write, AFTER ROW triggers.  An error anywhere in a
    statement aborts the whole statement, the triggers included: trigger
    functions here have no exception handler and run with the rights of
    the calling identity, so each statement they issue is rewritten and
    checked against the policies and constraints as the caller's own.
    Every identity acts in the role [authenticated], to which all the
    policies are granted and which row-level security binds. *)

From Stdlib Require Import List String ZArith Bool Lia.
Import ListNotations.
Open Scope string_scope.

(** ** Values *)

(** [uuid] columns.  Only equality of keys is ever used. *)
Definition uuid := N.
Bind Scope N_scope with uuid.

(** [timestamptz] columns, in microseconds since the epoch. *)
Definition timestamptz := Z.
Bind Scope Z_scope with timestamptz.

(** [interval 'n days'] added to a timestamp (session time zone UTC). *)
Definition interval_days (n : Z) : Z := (n * 86400000000)%Z.

(** A nullable column is an [option]; [None] is SQL NULL. *)
Module Sql.

(** SQL booleans are three-valued: [None] is NULL (unknown). *)
Definition tbool := option bool.

Definition and3 (a b : tbool) : tbool :=
  match a, b with
  | Some false, _ | _, Some false => Some false
  | Some true, Some true => Some true
  | _, _ => None
  end.

Definition or3 (a b : tbool) : tbool :=
  match a, b with
  | Some true, _ | _, Some true => Some true
  | Some false, Some false => Some false
  | _, _ => None
  end.

Definition not3 (a : tbool) : tbool := option_map negb a.

(** [a = b]: NULL as soon as one side is NULL. *)
Definition eq3 {A} (eqb : A -> A -> bool) (a b : option A) : tbool :=
  match a, b with
  | Some x, Some y => Some (eqb x y)
  | _, _ => None
  end.

(** [a <> b] (also written [!=]). *)
Definition neq3 {A} (eqb : A -> A -> bool) (a b : option A) : tbool :=
  not3 (eq3 eqb a b).

(** [a IS DISTINCT FROM b]: never NULL, two NULLs are not distinct. *)
Definition is_distinct_from {A} (eqb : A -> A -> bool) (a b : option A) : bool :=
  match a, b with
  | Some x, Some y => negb (eqb x y)
  | None, None => false
  | _, _ => true
  end.

(** [x IN (v1, ..., vn)] for a list of non-null literals. *)
Definition in3 {A} (eqb : A -> A -> bool) (a : option A) (vs : list A) : tbool :=
  option_map (fun x => existsb (eqb x) vs) a.

(** A policy, a [WHERE] or an [IF] lets a row through only on TRUE. *)
Definition is_true (a : tbool) : bool :=
  match a with Some true => true | _ => false end.

(** A [CHECK] constraint rejects a row only on FALSE; NULL passes. *)
Definition check_passes (a : tbool) : bool :=
  match a with Some false => false | _ => true end.

(** [a || b] on text: NULL as soon as one side is NULL. *)
Definition concat (a b : option string) : option string :=
  match a, b with
  | Some x, Some y => Some (x ++ y)
  | _, _ => None
  end.

(** [a > b] and [a <= b] on timestamps. *)
Definition gt3 (a b : option Z) : tbool :=
  match a, b with
  | Some x, Some y => Some (Z.gtb x y)
  | _, _ => None
  end.

Definition le3 (a b : option Z) : tbool :=
  match a, b with
  | Some x, Some y => Some (Z.leb x y)
  | _, _ => None
  end.

(** [a IS NOT NULL]. *)
Definition is_not_null {A} (a : option A) : bool :=
  match a with Some _ => true | None => false end.

Definition eq_uuid := @eq3 uuid N.eqb.
Definition eq_text := @eq3 string String.eqb.
Definition eq_bool := @eq3 bool Bool.eqb.
Definition in_text := @in3 string String.eqb.

(** Equality of [uuid[]] values. *)
Fixpoint array_eqb (a b : list uuid) : bool :=
  match a, b with
  | [], [] => true
  | x :: a', y :: b' => N.eqb x y && array_eqb a' b'
  | _, _ => false
  end.

End Sql.

(** ** Errors and the statement monad *)

Inductive sql_error : Type :=
| rls_violation (table : string)
    (* 42501: new row violates row-level security policy for table *)
| check_violation (table column : string)                  (* 23514 *)
| not_null_violation (table column : string)               (* 23502 *)
| foreign_key_violation (table constraint_column : string) (* 23503 *)
| undefined_field (record field : string)
    (* 42703: record "new" has no field ... *)
| infinite_recursion (table : string)
    (* 42P17: infinite recursion detected in policy for relation ... *)
| numeric_value_out_of_range (type : string).
    (* 22003: integer out of range *)

Inductive result (A : Type) : Type :=
| Ok (a : A)
| Err (e : sql_error).
Arguments Ok {A} a.
Arguments Err {A} e.

Definition bind {A B} (m : result A) (k : A -> result B) : result B :=
  match m with
  | Ok a => k a
  | Err e => Err e
  end.

Notation "'let*' x := m 'in' k" := (bind m (fun x => k))
  (at level 10, x name, m at level 100, k at level 200).

(** [require c e]: go on when [c] holds, raise [e] otherwise. *)
Definition require (c : bool) (e : sql_error) : result unit :=
  if c then Ok tt else Err e.

(** Run [f] for each element, left to right, stopping at the first error. *)
Fixpoint for_each {A S} (f : A -> S -> result S) (xs : list A) (s : S) : result S :=
  match xs with
  | [] => Ok s
  | x :: xs' => let* s' := f x s in for_each f xs' s'
  end.

(** [integer] columns hold 32 bits; a value outside the range is refused
    when it is assigned to the column. *)
Definition int4 (z : Z) : bool :=
  (Z.leb (-2147483648) z && Z.leb z 2147483647)%bool.

(** ** Rows

    Columns that no policy, constraint of interest or trigger reads
    (free-text descriptions, indexes, timestamps of creation) are left
    out; every other column keeps its name. *)

(** [profiles]: the table is created outside these migrations; its columns
    are those of the client's [Profile] interface that the SQL reads. *)
Record profile := {
  p_id : uuid;
  p_role : string;            (* 'candidato' | 'rrhh' *)
  p_nombre : option string;
  p_apellidos : option string }.

Record job_offer := {
  jo_id : uuid;
  jo_titulo : string;
  jo_estado : option string;  (* DEFAULT 'abierta' CHECK IN ('abierta','cerrada') *)
  jo_created_by : option uuid }.

Record application := {
  a_id : uuid;
  a_job_offer_id : option uuid;
  a_user_id : option uuid;
  a_estado : option string }. (* DEFAULT 'pendiente' CHECK IN (...) *)

Record message := {
  m_id : uuid;
  m_sender_id : uuid;
  m_receiver_id : uuid;
  m_content : string;
  m_read : option bool;       (* DEFAULT false *)
  m_application_id : option uuid }.

Record notification := {
  n_id : uuid;
  n_user_id : option uuid;    (* NOT NULL, REFERENCES profiles(id) *)
  n_type : string;            (* NOT NULL, CHECK *)
  n_title : string;
  n_content : option string;  (* NOT NULL *)
  n_read : option bool;       (* DEFAULT false *)
  n_created_at : timestamptz;
  n_related_id : option uuid }.

Record email_notification := {
  e_id : uuid;
  e_type : string;            (* NOT NULL, CHECK *)
  e_recipient_id : option uuid;
  e_subject : string;
  e_content : string;
  e_status : string;          (* DEFAULT 'pending' *)
  e_created_at : timestamptz }.

Record selection_process := {
  sp_id : uuid;
  sp_job_offer_id : option uuid;
  sp_candidate_id : option uuid;
  sp_status : string;         (* NOT NULL, CHECK *)
  sp_required_assessments : option (list uuid);   (* uuid[] DEFAULT '{}' *)
  sp_completed_assessments : option (list uuid);
  sp_updated_at : timestamptz }.

Record process_stage := {
  ps_id : uuid;
  ps_process_id : option uuid;  (* REFERENCES selection_processes(id) *)
  ps_name : string;
  ps_order_index : Z }.

Record candidate_evaluation := {
  ce_id : uuid;
  ce_stage_id : option uuid;
  ce_evaluator_id : option uuid;
  ce_score : option Z;        (* CHECK (score >= 0 AND score <= 100) *)
  ce_status : string;         (* NOT NULL, CHECK IN ('pending','passed','failed') *)
  ce_template_id : option uuid;
  ce_updated_at : timestamptz }.

Record document := {
  d_id : uuid;
  d_title : string;
  d_type : string;
  d_file_url : string;
  d_version : Z;
  d_status : string;
  d_expiry_date : option timestamptz;
  d_user_id : option uuid }.

Record evaluation_template := {
  t_id : uuid;
  t_name : string;
  t_position_type : string;
  t_max_score : Z;
  t_passing_score : Z;
  t_created_by : option uuid }.

Record evaluation_criterion := {
  c_id : uuid;
  c_template_id : option uuid;  (* REFERENCES evaluation_templates(id) ON DELETE CASCADE *)
  c_name : string;
  c_weight : Z;
  c_min_score : Z;
  c_max_score : Z;
  c_order_index : Z }.

Record activity := {
  act_id : uuid;
  act_tipo : string;            (* NOT NULL, CHECK *)
  act_descripcion : string;
  act_fecha : timestamptz;      (* DEFAULT now() *)
  act_usuario_id : option uuid; (* NOT NULL, REFERENCES profiles(id) *)
  act_oferta_id : option uuid }. (* REFERENCES job_offers(id) ON DELETE CASCADE *)

Record interview := {
  iv_id : uuid;
  iv_process_id : option uuid;     (* REFERENCES selection_processes(id) *)
  iv_interviewer_id : option uuid; (* REFERENCES profiles(id) *)
  iv_scheduled_date : timestamptz;
  iv_duration_minutes : Z;
  iv_status : string }.            (* NOT NULL, CHECK *)

Record skill_assessment := {
  sa_id : uuid;
  sa_name : string;
  sa_skill_type : string;
  sa_time_limit_minutes : option Z;
  sa_passing_score : Z;
  sa_is_active : option bool;
  sa_created_by : option uuid }.

Record assessment_question := {
  aq_id : uuid;
  aq_assessment_id : option uuid;  (* REFERENCES skill_assessments(id) *)
  aq_question : string;
  aq_question_type : string;
  aq_correct_answer : option string;
  aq_points : Z;
  aq_order_index : Z }.

(** ** The database *)

Record db := {
  profiles : list profile;
  job_offers : list job_offer;
  applications : list application;
  messages : list message;
  notifications : list notification;
  email_notifications : list email_notification;
  selection_processes : list selection_process;
  process_stages : list process_stage;
  candidate_evaluations : list candidate_evaluation;
  documents : list document;
  evaluation_templates : list evaluation_template;
  evaluation_criteria : list evaluation_criterion;
  next_uuid : uuid }.          (* the next value of gen_random_uuid() *)

Definition set_applications (v : list application) (s : db) : db :=
  {| profiles := profiles s; job_offers := job_offers s; applications := v;
     messages := messages s; notifications := notifications s;
     email_notifications := email_notifications s;
     selection_processes := selection_processes s;
     process_stages := process_stages s;
     candidate_evaluations := candidate_evaluations s; documents := documents s;
     evaluation_templates := evaluation_templates s;
     evaluation_criteria := evaluation_criteria s; next_uuid := next_uuid s |}.

Definition set_messages (v : list message) (s : db) : db :=
  {| profiles := profiles s; job_offers := job_offers s; applications := applications s;
     messages := v; notifications := notifications s;
     email_notifications := email_notifications s;
     selection_processes := selection_processes s;
     process_stages := process_stages s;
     candidate_evaluations := candidate_evaluations s; documents := documents s;
     evaluation_templates := evaluation_templates s;
     evaluation_criteria := evaluation_criteria s; next_uuid := next_uuid s |}.

Definition set_notifications (v : list notification) (s : db) : db :=
  {| profiles := profiles s; job_offers := job_offers s; applications := applications s;
     messages := messages s; notifications := v;
     email_notifications := email_notifications s;
     selection_processes := selection_processes s;
     process_stages := process_stages s;
     candidate_evaluations := candidate_evaluations s; documents := documents s;
     evaluation_templates := evaluation_templates s;
     evaluation_criteria := evaluation_criteria s; next_uuid := next_uuid s |}.

Definition set_email_notifications (v : list email_notification) (s : db) : db :=
  {| profiles := profiles s; job_offers := job_offers s; applications := applications s;
     messages := messages s; notifications := notifications s;
     email_notifications := v;
     selection_processes := selection_processes s;
     process_stages := process_stages s;
     candidate_evaluations := candidate_evaluations s; documents := documents s;
     evaluation_templates := evaluation_templates s;
     evaluation_criteria := evaluation_criteria s; next_uuid := next_uuid s |}.

Definition set_selection_processes (v : list selection_process) (s : db) : db :=
  {| profiles := profiles s; job_offers := job_offers s; applications := applications s;
     messages := messages s; notifications := notifications s;
     email_notifications := email_notifications s;
     selection_processes := v;
     process_stages := process_stages s;
     candidate_evaluations := candidate_evaluations s; documents := documents s;
     evaluation_templates := evaluation_templates s;
     evaluation_criteria := evaluation_criteria s; next_uuid := next_uuid s |}.

Definition set_candidate_evaluations (v : list candidate_evaluation) (s : db) : db :=
  {| profiles := profiles s; job_offers := job_offers s; applications := applications s;
     messages := messages s; notifications := notifications s;
     email_notifications := email_notifications s;
     selection_processes := selection_processes s;
     process_stages := process_stages s;
     candidate_evaluations := v; documents := documents s;
     evaluation_templates := evaluation_templates s;
     evaluation_criteria := evaluation_criteria s; next_uuid := next_uuid s |}.

Definition set_documents (v : list document) (s : db) : db :=
  {| profiles := profiles s; job_offers := job_offers s; applications := applications s;
     messages := messages s; notifications := notifications s;
     email_notifications := email_notifications s;
     selection_processes := selection_processes s;
     process_stages := process_stages s;
     candidate_evaluations := candidate_evaluations s; documents := v;
     evaluation_templates := evaluation_templates s;
     evaluation_criteria := evaluation_criteria s; next_uuid := next_uuid s |}.

Definition set_templates_and_criteria
    (ts : list evaluation_template) (cs : list evaluation_criterion) (s : db) : db :=
  {| profiles := profiles s; job_offers := job_offers s; applications := applications s;
     messages := messages s; notifications := notifications s;
     email_notifications := email_notifications s;
     selection_processes := selection_processes s;
     process_stages := process_stages s;
     candidate_evaluations := candidate_evaluations s; documents := documents s;
     evaluation_templates := ts;
     evaluation_criteria := cs; next_uuid := next_uuid s |}.

Definition set_next_uuid (v : uuid) (s : db) : db :=
  {| profiles := profiles s; job_offers := job_offers s; applications := applications s;
     messages := messages s; notifications := notifications s;
     email_notifications := email_notifications s;
     selection_processes := selection_processes s;
     process_stages := process_stages s;
     candidate_evaluations := candidate_evaluations s; documents := documents s;
     evaluation_templates := evaluation_templates s;
     evaluation_criteria := evaluation_criteria s; next_uuid := v |}.

(** [gen_random_uuid()]: hands out the next key. *)
Definition gen_random_uuid (s : db) : uuid * db :=
  (next_uuid s, set_next_uuid (N.succ (next_uuid s)) s).

(** What a statement leaves behind: its result when it succeeds, the
    database it started from when it raises (the statement is undone as a
    whole, rows written before the error included). *)
Definition commit (stmt : db -> result db) (s : db) : db :=
  match stmt s with
  | Ok s' => s'
  | Err _ => s
  end.

(** The database together with the tables [activities] and [interviews]. *)
Record store := {
  base : db;
  activities : list activity;
  interviews : list interview }.

Definition commit_store (stmt : store -> result store) (w : store) : store :=
  match stmt w with
  | Ok w' => w'
  | Err _ => w
  end.

(** A statement on the tables of [db] run in the larger database. *)
Definition on_base (f : db -> result db) (w : store) : result store :=
  let* s := f (base w) in
  Ok {| base := s; activities := activities w; interviews := interviews w |}.

Definition set_job_offers (v : list job_offer) (s : db) : db :=
  {| profiles := profiles s; job_offers := v; applications := applications s;
     messages := messages s; notifications := notifications s;
     email_notifications := email_notifications s;
     selection_processes := selection_processes s;
     process_stages := process_stages s;
     candidate_evaluations := candidate_evaluations s; documents := documents s;
     evaluation_templates := evaluation_templates s;
     evaluation_criteria := evaluation_criteria s; next_uuid := next_uuid s |}.

Definition set_profiles (v : list profile) (s : db) : db :=
  {| profiles := v; job_offers := job_offers s; applications := applications s;
     messages := messages s; notifications := notifications s;
     email_notifications := email_notifications s;
     selection_processes := selection_processes s;
     process_stages := process_stages s;
     candidate_evaluations := candidate_evaluations s; documents := documents s;
     evaluation_templates := evaluation_templates s;
     evaluation_criteria := evaluation_criteria s; next_uuid := next_uuid s |}.

Definition set_p_role (v : string) (p : profile) : profile :=
  {| p_id := p_id p; p_role := v; p_nombre := p_nombre p;
     p_apellidos := p_apellidos p |}.

(** ** Row-level security

    [CREATE POLICY name ON table FOR cmd USING (e) WITH CHECK (e')].  All
    policies here are permissive and granted [TO authenticated]: a row
    passes when one applicable policy's expression is TRUE.  A policy
    without [FOR] is [FOR ALL]; where a policy that applies to new rows has
    no [WITH CHECK], its [USING] expression is the check. *)

Inductive command := SELECT | INSERT | UPDATE | DELETE.

Definition command_eqb (a b : command) : bool :=
  match a, b with
  | SELECT, SELECT | INSERT, INSERT | UPDATE, UPDATE | DELETE, DELETE => true
  | _, _ => false
  end.

(** The tables under row-level security that a statement below names, or
    that the subquery of a policy selects from.  Each has
    [ENABLE ROW LEVEL SECURITY] in the migrations, [profiles] included. *)
Inductive relation :=
| Profiles | Job_offers | Applications | Messages | Notifications
| Email_notifications | Selection_processes | Process_stages
| Candidate_evaluations | Documents | Evaluation_templates
| Evaluation_criteria | Activities | Interviews | Skill_assessments
| Assessment_questions.

Definition relation_name (r : relation) : string :=
  match r with
  | Profiles => "profiles"
  | Job_offers => "job_offers"
  | Applications => "applications"
  | Messages => "messages"
  | Notifications => "notifications"
  | Email_notifications => "email_notifications"
  | Selection_processes => "selection_processes"
  | Process_stages => "process_stages"
  | Candidate_evaluations => "candidate_evaluations"
  | Documents => "documents"
  | Evaluation_templates => "evaluation_templates"
  | Evaluation_criteria => "evaluation_criteria"
  | Activities => "activities"
  | Interviews => "interviews"
  | Skill_assessments => "skill_assessments"
  | Assessment_questions => "assessment_questions"
  end.

Definition relation_eqb (a b : relation) : bool :=
  match a, b with
  | Profiles, Profiles | Job_offers, Job_offers | Applications, Applications
  | Messages, Messages | Notifications, Notifications
  | Email_notifications, Email_notifications
  | Selection_processes, Selection_processes | Process_stages, Process_stages
  | Candidate_evaluations, Candidate_evaluations | Documents, Documents
  | Evaluation_templates, Evaluation_templates
  | Evaluation_criteria, Evaluation_criteria | Activities, Activities
  | Interviews, Interviews | Skill_assessments, Skill_assessments
  | Assessment_questions, Assessment_questions => true
  | _, _ => false
  end.

(** An expression of a policy on table rows [R].  [reads] lists the tables
    its subqueries select from, in the order of the text: the rewriter
    expands the policies of each of them into the subquery before the
    statement runs, see [row_security].  [value] is what the executor then
    computes for a row: it sees the database (for the subqueries),
    [auth.uid()] and the row. *)
Record policy_expr (R : Type) := {
  reads : list relation;
  value : db -> uuid -> R -> Sql.tbool }.
Arguments reads {R} _.
Arguments value {R} _.

(** An expression over the row and [auth.uid()], without subquery. *)
Definition row_test {R} (f : uuid -> R -> Sql.tbool) : policy_expr R :=
  {| reads := []; value := fun _ uid r => f uid r |}.

Record policy (R : Type) := {
  pol_name : string;
  pol_for : option command;               (* [None]: FOR ALL *)
  pol_using : option (policy_expr R);
  pol_with_check : option (policy_expr R) }.
Arguments pol_name {R} _.
Arguments pol_for {R} _.
Arguments pol_using {R} _.
Arguments pol_with_check {R} _.

Definition applies_to {R} (c : command) (p : policy R) : bool :=
  match pol_for p with
  | None => true
  | Some c' => command_eqb c c'
  end.

(** The expression filtering existing rows. *)
Definition using_of {R} (p : policy R) (s : db) (uid : uuid) (r : R) : bool :=
  match pol_using p with
  | Some e => Sql.is_true (value e s uid r)
  | None => true
  end.

(** The expression checking new rows. *)
Definition with_check_of {R} (p : policy R) (s : db) (uid : uuid) (r : R) : bool :=
  match pol_with_check p with
  | Some e => Sql.is_true (value e s uid r)
  | None => using_of p s uid r
  end.

(** An existing row is visible to command [c]. *)
Definition passes_using {R} (ps : list (policy R)) (c : command)
    (s : db) (uid : uuid) (r : R) : bool :=
  existsb (fun p => applies_to c p && using_of p s uid r) ps.

(** A new row is accepted by command [c]. *)
Definition passes_check {R} (ps : list (policy R)) (c : command)
    (s : db) (uid : uuid) (r : R) : bool :=
  existsb (fun p => applies_to c p && with_check_of p s uid r) ps.

(** The tables the subqueries of [USING], and of the check, select from. *)
Definition using_reads {R} (p : policy R) : list relation :=
  match pol_using p with
  | Some e => reads e
  | None => []
  end.

Definition check_reads {R} (p : policy R) : list relation :=
  match pol_with_check p with
  | Some e => reads e
  | None => using_reads p
  end.

(** The subqueries the rewriter meets when it adds the policies [ps] of a
    table to a statement [c] on it: the [USING] of the policies for [c]
    as filters, then their checks on new rows.  An UPDATE or DELETE with a
    WHERE clause reads the rows it writes, so the SELECT policies are
    added to it as well, as filters and, for an UPDATE, on the new rows. *)
Definition expanded {R} (ps : list (policy R)) (c : command) : list relation :=
  let usings c' := flat_map using_reads (filter (applies_to c') ps) in
  let checks c' := flat_map check_reads (filter (applies_to c') ps) in
  match c with
  | SELECT => usings SELECT
  | INSERT => checks INSERT
  | UPDATE => usings UPDATE ++ usings SELECT ++ checks UPDATE ++ usings SELECT
  | DELETE => usings DELETE ++ usings SELECT
  end.

(** [EXISTS (SELECT 1 FROM profiles WHERE profiles.id = auth.uid()
            AND profiles.role = 'rrhh')], the role test of every RRHH
    policy.  The subquery selects from [profiles], a table with policies
    of its own, which the rewriter has to expand into it before the
    statement runs: [rrhh_expr] records it in [reads], and [row_security]
    is where the statement then fails.  [stored_as_rrhh] is the fact about
    the table that the test asks for, a profile of the caller with the
    role 'rrhh'; the row asked for is the caller's own, which "Users can
    view their own profile" shows to the caller. *)
Definition stored_as_rrhh (s : db) (uid : uuid) : bool :=
  existsb (fun p => N.eqb (p_id p) uid && String.eqb (p_role p) "rrhh") (profiles s).

Definition rrhh_expr {R} : policy_expr R :=
  {| reads := [Profiles]; value := fun s uid _ => Some (stored_as_rrhh s uid) |}.

(** *** profiles *)

Definition users_can_view_their_own_profile : policy profile :=
  {| pol_name := "Users can view their own profile"; pol_for := Some SELECT;
     pol_using := Some (row_test (fun uid p => Sql.eq_uuid (Some (p_id p)) (Some uid)));
     pol_with_check := None |}.

(** The policy selects from the table it is declared on. *)
Definition rrhh_can_view_all_profiles : policy profile :=
  {| pol_name := "RRHH can view all profiles"; pol_for := Some SELECT;
     pol_using := Some rrhh_expr; pol_with_check := None |}.

Definition users_can_update_their_own_profile : policy profile :=
  {| pol_name := "Users can update their own profile"; pol_for := Some UPDATE;
     pol_using := Some (row_test (fun uid p => Sql.eq_uuid (Some (p_id p)) (Some uid)));
     pol_with_check :=
       Some (row_test (fun uid p => Sql.eq_uuid (Some (p_id p)) (Some uid))) |}.

Definition profiles_policies : list (policy profile) :=
  [users_can_view_their_own_profile; rrhh_can_view_all_profiles;
   users_can_update_their_own_profile].

(** *** job_offers *)

Definition rrhh_can_manage_job_offers : policy job_offer :=
  {| pol_name := "RRHH can manage job offers"; pol_for := None;
     pol_using := Some rrhh_expr; pol_with_check := None |}.

Definition everyone_can_view_active_job_offers : policy job_offer :=
  {| pol_name := "Everyone can view active job offers"; pol_for := Some SELECT;
     pol_using := Some (row_test (fun _ o => Sql.eq_text (jo_estado o) (Some "abierta")));
     pol_with_check := None |}.

Definition job_offers_policies : list (policy job_offer) :=
  [rrhh_can_manage_job_offers; everyone_can_view_active_job_offers].

(** *** applications *)

Definition rrhh_can_view_all_applications : policy application :=
  {| pol_name := "RRHH can view all applications"; pol_for := Some SELECT;
     pol_using := Some rrhh_expr; pol_with_check := None |}.

Definition rrhh_can_manage_applications : policy application :=
  {| pol_name := "RRHH can manage applications"; pol_for := None;
     pol_using := Some rrhh_expr; pol_with_check := None |}.

Definition users_can_view_their_own_applications : policy application :=
  {| pol_name := "Users can view their own applications"; pol_for := Some SELECT;
     pol_using := Some (row_test (fun uid a => Sql.eq_uuid (a_user_id a) (Some uid)));
     pol_with_check := None |}.

Definition users_can_create_applications : policy application :=
  {| pol_name := "Users can create applications"; pol_for := Some INSERT;
     pol_using := None;
     pol_with_check :=
       Some (row_test (fun uid a => Sql.eq_uuid (a_user_id a) (Some uid))) |}.

Definition applications_policies : list (policy application) :=
  [rrhh_can_view_all_applications; rrhh_can_manage_applications;
   users_can_view_their_own_applications; users_can_create_applications].

(** *** messages *)

Definition users_can_read_their_messages : policy message :=
  {| pol_name := "Users can read their messages"; pol_for := Some SELECT;
     pol_using := Some (row_test (fun uid m =>
       Sql.or3 (Sql.eq_uuid (Some uid) (Some (m_sender_id m)))
               (Sql.eq_uuid (Some uid) (Some (m_receiver_id m)))));
     pol_with_check := None |}.

Definition users_can_create_messages : policy message :=
  {| pol_name := "Users can create messages"; pol_for := Some INSERT;
     pol_using := None;
     pol_with_check := Some (row_test (fun uid m =>
       Sql.eq_uuid (Some uid) (Some (m_sender_id m)))) |}.

(** [read] and [messages.read] both name the column of the row the
    expression is evaluated on: a policy has no OLD and NEW. *)
Definition users_can_mark_messages_as_read : policy message :=
  {| pol_name := "Users can mark messages as read"; pol_for := Some UPDATE;
     pol_using := Some (row_test (fun uid m =>
       Sql.and3 (Sql.eq_uuid (Some uid) (Some (m_receiver_id m)))
                (Sql.and3 (Sql.eq_bool (m_read m) (Some true))
                          (Some (Sql.is_distinct_from Bool.eqb (m_read m) (m_read m))))));
     pol_with_check := None |}.

Definition messages_policies : list (policy message) :=
  [users_can_read_their_messages; users_can_create_messages;
   users_can_mark_messages_as_read].

(** *** notifications *)

Definition users_can_read_their_notifications : policy notification :=
  {| pol_name := "Users can read their notifications"; pol_for := Some SELECT;
     pol_using := Some (row_test (fun uid n => Sql.eq_uuid (n_user_id n) (Some uid)));
     pol_with_check := None |}.

(** As for messages, [read] and [notifications.read] are one column of one
    row, here the new row. *)
Definition users_can_mark_their_notifications_as_read : policy notification :=
  {| pol_name := "Users can mark their notifications as read"; pol_for := Some UPDATE;
     pol_using := Some (row_test (fun uid n => Sql.eq_uuid (n_user_id n) (Some uid)));
     pol_with_check := Some (row_test (fun uid n =>
       Sql.and3 (Sql.eq_uuid (n_user_id n) (Some uid))
                (Sql.and3 (Sql.eq_bool (n_read n) (Some true))
                          (Some (Sql.is_distinct_from Bool.eqb (n_read n) (n_read n)))))) |}.

Definition allow_trigger_based_notification_creation : policy notification :=
  {| pol_name := "Allow trigger-based notification creation"; pol_for := Some INSERT;
     pol_using := None; pol_with_check := Some rrhh_expr |}.

Definition notifications_policies : list (policy notification) :=
  [users_can_read_their_notifications; users_can_mark_their_notifications_as_read;
   allow_trigger_based_notification_creation].

(** *** email_notifications *)

Definition rrhh_can_view_all_email_notifications : policy email_notification :=
  {| pol_name := "RRHH can view all email notifications"; pol_for := None;
     pol_using := Some rrhh_expr; pol_with_check := None |}.

Definition users_can_view_their_own_email_notifications : policy email_notification :=
  {| pol_name := "Users can view their own email notifications"; pol_for := Some SELECT;
     pol_using := Some (row_test (fun uid e => Sql.eq_uuid (e_recipient_id e) (Some uid)));
     pol_with_check := None |}.

Definition email_notifications_policies : list (policy email_notification) :=
  [rrhh_can_view_all_email_notifications; users_can_view_their_own_email_notifications].

(** *** selection_processes *)

Definition rrhh_can_manage_selection_processes : policy selection_process :=
  {| pol_name := "RRHH can manage selection processes"; pol_for := None;
     pol_using := Some rrhh_expr; pol_with_check := Some rrhh_expr |}.

Definition candidates_can_view_their_own_processes : policy selection_process :=
  {| pol_name := "Candidates can view their own processes"; pol_for := Some SELECT;
     pol_using := Some (row_test (fun uid p => Sql.eq_uuid (sp_candidate_id p) (Some uid)));
     pol_with_check := None |}.

Definition selection_processes_policies : list (policy selection_process) :=
  [rrhh_can_manage_selection_processes; candidates_can_view_their_own_processes].

(** *** process_stages *)

Definition rrhh_can_manage_process_stages : policy process_stage :=
  {| pol_name := "RRHH can manage process stages"; pol_for := None;
     pol_using := Some rrhh_expr; pol_with_check := Some rrhh_expr |}.

(** [EXISTS (SELECT 1 FROM selection_processes
      WHERE selection_processes.id = process_stages.process_id
        AND selection_processes.candidate_id = auth.uid())] *)
Definition candidates_can_view_stages_of_their_processes : policy process_stage :=
  {| pol_name := "Candidates can view stages of their processes";
     pol_for := Some SELECT;
     pol_using := Some
       {| reads := [Selection_processes];
          value := fun s uid st => Some (
            existsb (fun p =>
              Sql.is_true (Sql.and3 (Sql.eq_uuid (Some (sp_id p)) (ps_process_id st))
                                    (Sql.eq_uuid (sp_candidate_id p) (Some uid))))
              (selection_processes s)) |};
     pol_with_check := None |}.

Definition process_stages_policies : list (policy process_stage) :=
  [rrhh_can_manage_process_stages; candidates_can_view_stages_of_their_processes].

(** *** candidate_evaluations *)

Definition rrhh_can_manage_evaluations : policy candidate_evaluation :=
  {| pol_name := "RRHH can manage evaluations"; pol_for := None;
     pol_using := Some rrhh_expr; pol_with_check := Some rrhh_expr |}.

(** [EXISTS (SELECT 1 FROM process_stages JOIN selection_processes
       ON process_stages.process_id = selection_processes.id
     WHERE process_stages.id = candidate_evaluations.stage_id
       AND selection_processes.candidate_id = auth.uid())] *)
Definition candidates_can_view_their_evaluations : policy candidate_evaluation :=
  {| pol_name := "Candidates can view their evaluations"; pol_for := Some SELECT;
     pol_using := Some
       {| reads := [Process_stages; Selection_processes];
          value := fun s uid ev => Some (
            existsb (fun st =>
              existsb (fun p =>
                Sql.is_true (Sql.and3 (Sql.eq_uuid (ps_process_id st) (Some (sp_id p)))
                  (Sql.and3 (Sql.eq_uuid (Some (ps_id st)) (ce_stage_id ev))
                            (Sql.eq_uuid (sp_candidate_id p) (Some uid)))))
                (selection_processes s))
              (process_stages s)) |};
     pol_with_check := None |}.

Definition candidate_evaluations_policies : list (policy candidate_evaluation) :=
  [rrhh_can_manage_evaluations; candidates_can_view_their_evaluations].

(** *** documents *)

Definition users_can_view_their_own_documents : policy document :=
  {| pol_name := "Users can view their own documents"; pol_for := Some SELECT;
     pol_using := Some (row_test (fun uid d => Sql.eq_uuid (d_user_id d) (Some uid)));
     pol_with_check := None |}.

Definition users_can_manage_their_own_documents : policy document :=
  {| pol_name := "Users can manage their own documents"; pol_for := None;
     pol_using := Some (row_test (fun uid d => Sql.eq_uuid (d_user_id d) (Some uid)));
     pol_with_check :=
       Some (row_test (fun uid d => Sql.eq_uuid (d_user_id d) (Some uid))) |}.

Definition rrhh_can_view_all_documents : policy document :=
  {| pol_name := "RRHH can view all documents"; pol_for := Some SELECT;
     pol_using := Some rrhh_expr; pol_with_check := None |}.

Definition documents_policies : list (policy document) :=
  [users_can_view_their_own_documents; users_can_manage_their_own_documents;
   rrhh_can_view_all_documents].

(** *** evaluation_templates, evaluation_criteria *)

Definition rrhh_can_manage_evaluation_templates : policy evaluation_template :=
  {| pol_name := "RRHH can manage evaluation templates"; pol_for := None;
     pol_using := Some rrhh_expr; pol_with_check := Some rrhh_expr |}.

Definition evaluation_templates_policies : list (policy evaluation_template) :=
  [rrhh_can_manage_evaluation_templates].

Definition rrhh_can_manage_evaluation_criteria : policy evaluation_criterion :=
  {| pol_name := "RRHH can manage evaluation criteria"; pol_for := None;
     pol_using := Some rrhh_expr; pol_with_check := Some rrhh_expr |}.

Definition evaluation_criteria_policies : list (policy evaluation_criterion) :=
  [rrhh_can_manage_evaluation_criteria].

(** *** activities *)

Definition rrhh_can_view_activities : policy activity :=
  {| pol_name := "RRHH can view activities"; pol_for := Some SELECT;
     pol_using := Some rrhh_expr; pol_with_check := None |}.

Definition rrhh_can_manage_activities : policy activity :=
  {| pol_name := "RRHH can manage activities"; pol_for := None;
     pol_using := Some rrhh_expr; pol_with_check := Some rrhh_expr |}.

Definition activities_policies : list (policy activity) :=
  [rrhh_can_view_activities; rrhh_can_manage_activities].

(** *** interviews *)

Definition rrhh_can_manage_interviews : policy interview :=
  {| pol_name := "RRHH can manage interviews"; pol_for := None;
     pol_using := Some rrhh_expr; pol_with_check := Some rrhh_expr |}.

(** [EXISTS (SELECT 1 FROM selection_processes
      WHERE selection_processes.id = interviews.process_id
        AND selection_processes.candidate_id = auth.uid())] *)
Definition candidates_can_view_their_interviews : policy interview :=
  {| pol_name := "Candidates can view their interviews"; pol_for := Some SELECT;
     pol_using := Some
       {| reads := [Selection_processes];
          value := fun s uid iv => Some (
            existsb (fun p =>
              Sql.is_true (Sql.and3 (Sql.eq_uuid (Some (sp_id p)) (iv_process_id iv))
                                    (Sql.eq_uuid (sp_candidate_id p) (Some uid))))
              (selection_processes s)) |};
     pol_with_check := None |}.

Definition interviews_policies : list (policy interview) :=
  [rrhh_can_manage_interviews; candidates_can_view_their_interviews].

(** *** skill_assessments, assessment_questions *)

(** [x = ANY (a)] for a [uuid[]] column: NULL when the array is NULL. *)
Definition any_uuid (x : option uuid) (a : option (list uuid)) : Sql.tbool :=
  match x, a with
  | Some k, Some l => Some (existsb (N.eqb k) l)
  | _, _ => None
  end.

(** [EXISTS (SELECT 1 FROM selection_processes
      WHERE selection_processes.candidate_id = auth.uid()
        AND k = ANY(selection_processes.required_assessments))]. *)
Definition assigned_to (s : db) (uid : uuid) (k : option uuid) : bool :=
  existsb (fun p =>
      Sql.is_true (Sql.and3 (Sql.eq_uuid (sp_candidate_id p) (Some uid))
                            (any_uuid k (sp_required_assessments p))))
    (selection_processes s).

Definition rrhh_can_manage_skill_assessments : policy skill_assessment :=
  {| pol_name := "RRHH can manage skill assessments"; pol_for := None;
     pol_using := Some rrhh_expr; pol_with_check := Some rrhh_expr |}.

Definition candidates_can_view_assigned_assessments : policy skill_assessment :=
  {| pol_name := "Candidates can view assigned assessments"; pol_for := Some SELECT;
     pol_using := Some
       {| reads := [Selection_processes];
          value := fun s uid a => Some (assigned_to s uid (Some (sa_id a))) |};
     pol_with_check := None |}.

Definition skill_assessments_policies : list (policy skill_assessment) :=
  [rrhh_can_manage_skill_assessments; candidates_can_view_assigned_assessments].

Definition rrhh_can_manage_assessment_questions : policy assessment_question :=
  {| pol_name := "RRHH can manage assessment questions"; pol_for := None;
     pol_using := Some rrhh_expr; pol_with_check := Some rrhh_expr |}.

Definition candidates_can_view_questions_for_their_assessments
    : policy assessment_question :=
  {| pol_name := "Candidates can view questions for their assessments";
     pol_for := Some SELECT;
     pol_using := Some
       {| reads := [Selection_processes];
          value := fun s uid q => Some (assigned_to s uid (aq_assessment_id q)) |};
     pol_with_check := None |}.

Definition assessment_questions_policies : list (policy assessment_question) :=
  [rrhh_can_manage_assessment_questions;
   candidates_can_view_questions_for_their_assessments].

(** ** The rewriter

    Before a statement runs, the rewriter adds to it the policies of the
    table it names, and to each subquery of those policies the SELECT
    policies of the table the subquery selects from, and so on down.  It
    keeps the list of the tables whose policies it is in the middle of
    expanding, and raises when it comes to one of them again: this is
    done on the text of the policies, before any row is read, whatever
    the tables hold and whoever the caller is. *)

(** The tables the subqueries of the policies of [rel] select from, for a
    statement [c] on [rel]. *)
Definition sublinks_of (rel : relation) (c : command) : list relation :=
  match rel with
  | Profiles => expanded profiles_policies c
  | Job_offers => expanded job_offers_policies c
  | Applications => expanded applications_policies c
  | Messages => expanded messages_policies c
  | Notifications => expanded notifications_policies c
  | Email_notifications => expanded email_notifications_policies c
  | Selection_processes => expanded selection_processes_policies c
  | Process_stages => expanded process_stages_policies c
  | Candidate_evaluations => expanded candidate_evaluations_policies c
  | Documents => expanded documents_policies c
  | Evaluation_templates => expanded evaluation_templates_policies c
  | Evaluation_criteria => expanded evaluation_criteria_policies c
  | Activities => expanded activities_policies c
  | Interviews => expanded interviews_policies c
  | Skill_assessments => expanded skill_assessments_policies c
  | Assessment_questions => expanded assessment_questions_policies c
  end.

Definition all_relations : list relation :=
  [Profiles; Job_offers; Applications; Messages; Notifications;
   Email_notifications; Selection_processes; Process_stages;
   Candidate_evaluations; Documents; Evaluation_templates;
   Evaluation_criteria; Activities; Interviews; Skill_assessments;
   Assessment_questions].

(** [active] holds the tables being expanded, [depth] bounds the nesting:
    a table is never entered twice on the way down, so the nesting is no
    deeper than the number of tables. *)
Fixpoint fire_rules (depth : nat) (active : list relation)
    (rel : relation) (c : command) : result unit :=
  if existsb (relation_eqb rel) active
  then Err (infinite_recursion (relation_name rel))
  else
    match depth with
    | O => Ok tt
    | S depth' =>
        for_each (fun t (_ : unit) => fire_rules depth' (rel :: active) t SELECT)
                 (sublinks_of rel c) tt
    end.

(** The rewriter on a statement [c] that names the table [rel]. *)
Definition row_security (rel : relation) (c : command) : result unit :=
  fire_rules (List.length all_relations) [] rel c.

(** ** Queries *)

(** The rows a query hands to the client: none when it raises. *)
Definition returned {A} (r : result (list A)) : list A :=
  match r with
  | Ok rows => rows
  | Err _ => []
  end.

(** [SELECT * FROM job_offers] as [uid]: the rows a select policy lets through. *)
Definition select_job_offers (s : db) (uid : uuid) : result (list job_offer) :=
  let* _ := row_security Job_offers SELECT in
  Ok (filter (passes_using job_offers_policies SELECT s uid) (job_offers s)).

Definition select_messages (s : db) (uid : uuid) : result (list message) :=
  let* _ := row_security Messages SELECT in
  Ok (filter (passes_using messages_policies SELECT s uid) (messages s)).

Definition select_notifications (s : db) (uid : uuid) : result (list notification) :=
  let* _ := row_security Notifications SELECT in
  Ok (filter (passes_using notifications_policies SELECT s uid) (notifications s)).

(** [SELECT ... FROM profiles] and [SELECT ... FROM selection_processes],
    as the trigger functions issue them in the name of [uid]. *)
Definition select_profiles (s : db) (uid : uuid) : result (list profile) :=
  let* _ := row_security Profiles SELECT in
  Ok (filter (passes_using profiles_policies SELECT s uid) (profiles s)).

Definition select_selection_processes (s : db) (uid : uuid)
    : result (list selection_process) :=
  let* _ := row_security Selection_processes SELECT in
  Ok (filter (passes_using selection_processes_policies SELECT s uid)
             (selection_processes s)).

(** The profile stored for an identity ([profiles.id] is the primary key)
    and the role stored in it: facts about the table, not queries. *)
Definition profile_of (s : db) (uid : uuid) : option profile :=
  find (fun p => N.eqb (p_id p) uid) (profiles s).

Definition role_of (s : db) (uid : uuid) : option string :=
  option_map p_role (profile_of s uid).

(** ** Constraints *)

(** A foreign key: NULL references nothing, a key must be that of a stored
    row.  The engine looks the key up with the rights of the table's
    owner, outside row-level security. *)
Definition references {R} (key : R -> uuid) (rows : list R) (v : option uuid) : bool :=
  match v with
  | None => true
  | Some k => existsb (fun r => N.eqb (key r) k) rows
  end.

(** [CHECK (type IN ('message', 'application_status', 'new_job_offer'))] *)
Definition notifications_type_check (n : notification) : Sql.tbool :=
  Sql.in_text (Some (n_type n)) ["message"; "application_status"; "new_job_offer"].

(** [CHECK (type IN ('process_update', 'assessment_invitation',
                    'interview_scheduled', 'evaluation_complete'))] *)
Definition email_notifications_type_check (e : email_notification) : Sql.tbool :=
  Sql.in_text (Some (e_type e))
    ["process_update"; "assessment_invitation"; "interview_scheduled"; "evaluation_complete"].

(** [CHECK (status IN ('pending', 'sent', 'failed'))] *)
Definition email_notifications_status_check (e : email_notification) : Sql.tbool :=
  Sql.in_text (Some (e_status e)) ["pending"; "sent"; "failed"].

(** [CHECK (estado IN ('pendiente', 'aceptada', 'rechazada'))] *)
Definition applications_estado_check (a : application) : Sql.tbool :=
  Sql.in_text (a_estado a) ["pendiente"; "aceptada"; "rechazada"].

(** [CHECK (status IN ('pending', 'in_progress', 'completed', 'rejected'))] *)
Definition selection_processes_status_check (p : selection_process) : Sql.tbool :=
  Sql.in_text (Some (sp_status p)) ["pending"; "in_progress"; "completed"; "rejected"].

(** [CHECK (score >= 0 AND score <= 100)] *)
Definition candidate_evaluations_score_check (ev : candidate_evaluation) : Sql.tbool :=
  Sql.and3 (Sql.le3 (Some 0%Z) (ce_score ev)) (Sql.le3 (ce_score ev) (Some 100%Z)).

(** [CHECK (status IN ('pending', 'passed', 'failed'))] *)
Definition candidate_evaluations_status_check (ev : candidate_evaluation) : Sql.tbool :=
  Sql.in_text (Some (ce_status ev)) ["pending"; "passed"; "failed"].

(** [CHECK (type IN ('driver_license', 'emergency_title', 'other_title'))] *)
Definition documents_type_check (d : document) : Sql.tbool :=
  Sql.in_text (Some (d_type d)) ["driver_license"; "emergency_title"; "other_title"].

(** [CHECK (status IN ('pending', 'approved', 'rejected'))] *)
Definition documents_status_check (d : document) : Sql.tbool :=
  Sql.in_text (Some (d_status d)) ["pending"; "approved"; "rejected"].

(** [CHECK (tipo IN ('creacion', 'modificacion', 'eliminacion'))] *)
Definition activities_tipo_check (a : activity) : Sql.tbool :=
  Sql.in_text (Some (act_tipo a)) ["creacion"; "modificacion"; "eliminacion"].

(** [CHECK (estado IN ('abierta', 'cerrada'))] *)
Definition job_offers_estado_check (o : job_offer) : Sql.tbool :=
  Sql.in_text (jo_estado o) ["abierta"; "cerrada"].

(** [CHECK (status IN ('scheduled', 'completed', 'cancelled'))] *)
Definition interviews_status_check (iv : interview) : Sql.tbool :=
  Sql.in_text (Some (iv_status iv)) ["scheduled"; "completed"; "cancelled"].

(** ** Writes made by the trigger functions

    Each is a statement of its own, issued in the name of [uid]: the
    rewriter first, then for each row the insert policy, NOT NULL, the
    CHECKs in the order of their names, the write and the foreign keys. *)

(** One row on its way into [notifications]. *)
Definition store_notification (now : timestamptz) (uid : uuid)
    (user_id : option uuid) (type title : string) (content : option string)
    (related_id : option uuid) (s : db) : result db :=
  let (id, s1) := gen_random_uuid s in
  let row := {| n_id := id; n_user_id := user_id; n_type := type; n_title := title;
                n_content := content; n_read := Some false; n_created_at := now;
                n_related_id := related_id |} in
  let* _ := require (passes_check notifications_policies INSERT s uid row)
               (rls_violation "notifications") in
  let* _ := require (Sql.is_not_null user_id) (not_null_violation "notifications" "user_id") in
  let* _ := require (Sql.is_not_null content) (not_null_violation "notifications" "content") in
  let* _ := require (Sql.check_passes (notifications_type_check row))
               (check_violation "notifications" "type") in
  let* _ := require (references p_id (profiles s) user_id)
               (foreign_key_violation "notifications" "user_id") in
  Ok (set_notifications (notifications s1 ++ [row]) s1).

(** [INSERT INTO notifications (user_id, type, title, content, related_id)
     VALUES (...)]. *)
Definition insert_into_notifications (now : timestamptz) (uid : uuid)
    (user_id : option uuid) (type title : string) (content : option string)
    (related_id : option uuid) (s : db) : result db :=
  let* _ := row_security Notifications INSERT in
  store_notification now uid user_id type title content related_id s.

(** The columns an insert into [email_notifications] gives. *)
Record email_values := {
  ev_type : string;
  ev_recipient_id : option uuid;
  ev_subject : string;
  ev_content : string }.

(** One row on its way into [email_notifications]; [status] takes its
    default. *)
Definition store_email_notification (now : timestamptz) (uid : uuid)
    (v : email_values) (s : db) : result db :=
  let (id, s1) := gen_random_uuid s in
  let row := {| e_id := id; e_type := ev_type v; e_recipient_id := ev_recipient_id v;
                e_subject := ev_subject v; e_content := ev_content v;
                e_status := "pending"; e_created_at := now |} in
  let* _ := require (passes_check email_notifications_policies INSERT s uid row)
               (rls_violation "email_notifications") in
  let* _ := require (Sql.check_passes (email_notifications_status_check row))
               (check_violation "email_notifications" "status") in
  let* _ := require (Sql.check_passes (email_notifications_type_check row))
               (check_violation "email_notifications" "type") in
  let* _ := require (references p_id (profiles s) (ev_recipient_id v))
               (foreign_key_violation "email_notifications" "recipient_id") in
  Ok (set_email_notifications (email_notifications s1 ++ [row]) s1).

(** [INSERT INTO email_notifications (type, recipient_id, subject, content)]
    with the rows of its VALUES or of its SELECT: the statement is
    rewritten also when the SELECT gives no row. *)
Definition insert_into_email_notifications (now : timestamptz) (uid : uuid)
    (rows : list email_values) (s : db) : result db :=
  let* _ := row_security Email_notifications INSERT in
  for_each (store_email_notification now uid) rows s.

(** [INSERT INTO activities (tipo, descripcion, usuario_id, oferta_id)]. *)
Definition insert_into_activities (now : timestamptz) (uid : uuid)
    (tipo descripcion : string) (usuario_id oferta_id : option uuid)
    (w : store) : result store :=
  let* _ := row_security Activities INSERT in
  let (id, s1) := gen_random_uuid (base w) in
  let row := {| act_id := id; act_tipo := tipo; act_descripcion := descripcion;
                act_fecha := now; act_usuario_id := usuario_id;
                act_oferta_id := oferta_id |} in
  let* _ := require (passes_check activities_policies INSERT (base w) uid row)
               (rls_violation "activities") in
  let* _ := require (Sql.is_not_null usuario_id)
               (not_null_violation "activities" "usuario_id") in
  let* _ := require (Sql.check_passes (activities_tipo_check row))
               (check_violation "activities" "tipo") in
  let* _ := require (references p_id (profiles (base w)) usuario_id)
               (foreign_key_violation "activities" "usuario_id") in
  let* _ := require (references jo_id (job_offers (base w)) oferta_id)
               (foreign_key_violation "activities" "oferta_id") in
  Ok {| base := s1; activities := activities w ++ [row]; interviews := interviews w |}.

(** ** Trigger functions *)

(** [(SELECT 'Mensaje de ' || nombre || ' ' || apellidos
      FROM profiles WHERE id = NEW.sender_id)], a subquery on [profiles]
    in the name of the caller: NULL when it finds no row. *)
Definition sender_display (s : db) (uid sender : uuid) : result (option string) :=
  let* visible := select_profiles s uid in
  Ok (match find (fun p => N.eqb (p_id p) sender) visible with
      | Some p =>
          Sql.concat (Sql.concat (Sql.concat (Some "Mensaje de ") (p_nombre p)) (Some " "))
                     (p_apellidos p)
      | None => None
      end).

(** The rewriter expands the subquery of the VALUES list, then the
    policies of [notifications]. *)
Definition create_message_notification (now : timestamptz) (uid : uuid)
    (NEW : message) (s : db) : result db :=
  let* content := sender_display s uid (m_sender_id NEW) in
  insert_into_notifications now uid
    (Some (m_receiver_id NEW)) "message" "Nuevo mensaje"
    content (m_application_id NEW) s.

(** ['Tu postulación ha sido ' || NEW.estado] *)
Definition application_status_content (NEW : application) : option string :=
  Sql.concat (Some "Tu postulación ha sido ") (a_estado NEW).

Definition create_application_notification (now : timestamptz) (uid : uuid)
    (OLD NEW : application) (s : db) : result db :=
  if Sql.is_true (Sql.neq3 String.eqb (a_estado NEW) (a_estado OLD)) then
    insert_into_notifications now uid
      (a_user_id NEW) "application_status" "Estado de postulación actualizado"
      (application_status_content NEW)
      (a_job_offer_id NEW) s
  else Ok s.

(** The three [CASE ... END] of [create_process_update_notification]. *)
Definition process_update_content (status : string) : string :=
  if String.eqb status "in_progress" then "Tu proceso de selección ha comenzado"
  else if String.eqb status "completed" then "Tu proceso de selección ha finalizado"
  else if String.eqb status "rejected" then
    "Lo sentimos, tu proceso de selección ha sido rechazado"
  else "Tu proceso de selección ha sido actualizado".

Definition process_update_email_subject (status : string) : string :=
  if String.eqb status "in_progress" then "Proceso de selección iniciado"
  else if String.eqb status "completed" then "Proceso de selección completado"
  else if String.eqb status "rejected" then "Actualización sobre tu postulación"
  else "Actualización del proceso de selección".

Definition process_update_email_content (status : string) : string :=
  if String.eqb status "in_progress" then
    "Tu proceso de selección ha comenzado. Por favor, mantente atento a las próximas etapas."
  else if String.eqb status "completed" then
    "Felicitaciones! Tu proceso de selección ha finalizado exitosamente."
  else if String.eqb status "rejected" then
    "Lamentamos informarte que no continuaremos con tu proceso de selección. Te agradecemos tu interés y te deseamos éxito en tu búsqueda laboral."
  else
    "Ha habido una actualización en tu proceso de selección. Por favor, ingresa a la plataforma para más detalles.".

Definition create_process_update_notification (now : timestamptz) (uid : uuid)
    (NEW : selection_process) (s : db) : result db :=
  (* Create in-app notification *)
  let* s1 := insert_into_notifications now uid
          (sp_candidate_id NEW) "process_update"
          "Actualización del proceso de selección"
          (Some (process_update_content (sp_status NEW)))
          (Some (sp_id NEW)) s in
  (* Create email notification *)
  insert_into_email_notifications now uid
    [ {| ev_type := "process_update"; ev_recipient_id := sp_candidate_id NEW;
         ev_subject := process_update_email_subject (sp_status NEW);
         ev_content := process_update_email_content (sp_status NEW) |} ] s1.

(** [NEW.required_assessments <> '{}'] *)
Definition array_not_empty (a : option (list uuid)) : Sql.tbool :=
  Sql.neq3 Sql.array_eqb a (Some []).

(** The invitation [create_assessment_invitation] sends to a candidate. *)
Definition assessment_invitation (recipient : option uuid) : email_values :=
  {| ev_type := "assessment_invitation"; ev_recipient_id := recipient;
     ev_subject := "Evaluación de habilidades pendiente";
     ev_content := "Se te ha asignado una nueva evaluación de habilidades. Por favor, ingresa a la plataforma para completarla." |}.

(** [SELECT 'assessment_invitation', NEW.candidate_id, ...
     WHERE NEW.required_assessments <> '{}']: one row when the condition
    is TRUE, none otherwise. *)
Definition assessment_invitation_select (NEW : selection_process) : list email_values :=
  if Sql.is_true (array_not_empty (sp_required_assessments NEW))
  then [assessment_invitation (sp_candidate_id NEW)]
  else [].

Definition create_assessment_invitation (now : timestamptz) (uid : uuid)
    (OLD NEW : selection_process) (s : db) : result db :=
  if Sql.is_distinct_from Sql.array_eqb
       (sp_required_assessments NEW) (sp_required_assessments OLD) then
    (* Create email notification for new assessments *)
    insert_into_email_notifications now uid (assessment_invitation_select NEW) s
  else Ok s.

(** [notify_evaluation_complete]: its INSERT selects from
    [selection_processes sp WHERE sp.id = NEW.process_id], and NEW is a row
    of [candidate_evaluations], which has [stage_id] and no [process_id]:
    the statement does not parse, and reaching it raises. *)
Definition notify_evaluation_complete (now : timestamptz) (uid : uuid)
    (NEW : candidate_evaluation) (s : db) : result db :=
  if String.eqb (ce_status NEW) "completed" then
    Err (undefined_field "new" "process_id")
  else Ok s.

(** [update_updated_at_column], BEFORE UPDATE: [NEW.updated_at = now()]. *)
Definition update_updated_at_column_sp (now : timestamptz)
    (NEW : selection_process) : selection_process :=
  {| sp_id := sp_id NEW; sp_job_offer_id := sp_job_offer_id NEW;
     sp_candidate_id := sp_candidate_id NEW; sp_status := sp_status NEW;
     sp_required_assessments := sp_required_assessments NEW;
     sp_completed_assessments := sp_completed_assessments NEW;
     sp_updated_at := now |}.

Definition update_updated_at_column_ce (now : timestamptz)
    (NEW : candidate_evaluation) : candidate_evaluation :=
  {| ce_id := ce_id NEW; ce_stage_id := ce_stage_id NEW;
     ce_evaluator_id := ce_evaluator_id NEW; ce_score := ce_score NEW;
     ce_status := ce_status NEW; ce_template_id := ce_template_id NEW;
     ce_updated_at := now |}.

(** What fired a row trigger, with the rows it is given: [TG_OP], OLD, NEW. *)
Inductive trigger_event (R : Type) : Type :=
| On_insert (NEW : R)
| On_update (OLD NEW : R)
| On_delete (OLD : R).
Arguments On_insert {R} NEW.
Arguments On_update {R} OLD NEW.
Arguments On_delete {R} OLD.

Definition log_job_offer_activity (now : timestamptz) (uid : uuid)
    (ev : trigger_event job_offer) (w : store) : result store :=
  match ev with
  | On_insert NEW =>
      insert_into_activities now uid "creacion"
        ("Nueva oferta de trabajo creada: " ++ jo_titulo NEW)
        (jo_created_by NEW) (Some (jo_id NEW)) w
  | On_update _ NEW =>
      insert_into_activities now uid "modificacion"
        ("Oferta de trabajo modificada: " ++ jo_titulo NEW)
        (jo_created_by NEW) (Some (jo_id NEW)) w
  | On_delete OLD =>
      insert_into_activities now uid "eliminacion"
        ("Oferta de trabajo eliminada: " ++ jo_titulo OLD)
        (jo_created_by OLD) (Some (jo_id OLD)) w
  end.

(** [SELECT id FROM profiles WHERE role != 'rrhh'], in the name of [uid]. *)
Definition profiles_to_notify (s : db) (uid : uuid) : result (list profile) :=
  let* visible := select_profiles s uid in
  Ok (filter (fun p => negb (String.eqb (p_role p) "rrhh")) visible).

(** The body of the loop of [create_job_offer_notification]. *)
Definition notify_profile_of_offer (now : timestamptz) (uid : uuid)
    (NEW : job_offer) (profile_record : profile) (s : db) : result db :=
  insert_into_notifications now uid
    (Some (p_id profile_record)) "new_job_offer" "Nueva oferta de trabajo"
    (Some ("Se ha publicado una nueva oferta: " ++ jo_titulo NEW))
    (Some (jo_id NEW)) s.

Definition create_job_offer_notification (now : timestamptz) (uid : uuid)
    (NEW : job_offer) (s : db) : result db :=
  let* found := profiles_to_notify s uid in
  for_each (notify_profile_of_offer now uid NEW) found s.

Definition dquote : string := String (Ascii.ascii_of_nat 34) EmptyString.

(** The title and the content of [notify_document_status_change]. *)
Definition document_status_title (status : string) : string :=
  if String.eqb status "approved" then "Documento aprobado"
  else if String.eqb status "rejected" then "Documento rechazado"
  else "Estado de documento actualizado".

Definition document_status_word (status : string) : string :=
  if String.eqb status "approved" then "aprobado"
  else if String.eqb status "rejected" then "rechazado"
  else "actualizado".

Definition notify_document_status_change (now : timestamptz) (uid : uuid)
    (OLD NEW : document) (s : db) : result db :=
  if Sql.is_true (Sql.neq3 String.eqb (Some (d_status NEW)) (Some (d_status OLD))) then
    insert_into_notifications now uid
      (d_user_id NEW) "document_status" (document_status_title (d_status NEW))
      (Some ("El documento " ++ dquote ++ d_title NEW ++ dquote ++ " ha sido "
             ++ document_status_word (d_status NEW)))
      (Some (d_id NEW)) s
  else Ok s.

(** ** Statements

    Each statement runs as the identity [uid] at transaction time [now]. *)

(** *** messages *)

(** [INSERT INTO messages (sender_id, receiver_id, content, application_id)]:
    the row itself, before the AFTER INSERT trigger. *)
Definition insert_message_row (uid : uuid) (sender receiver : uuid)
    (content : string) (application_id : option uuid) (s : db) : result (message * db) :=
  let* _ := row_security Messages INSERT in
  let (id, s1) := gen_random_uuid s in
  let row := {| m_id := id; m_sender_id := sender; m_receiver_id := receiver;
                m_content := content; m_read := Some false;
                m_application_id := application_id |} in
  let* _ := require (passes_check messages_policies INSERT s uid row)
               (rls_violation "messages") in
  let* _ := require (references p_id (profiles s) (Some sender))
               (foreign_key_violation "messages" "sender_id") in
  let* _ := require (references p_id (profiles s) (Some receiver))
               (foreign_key_violation "messages" "receiver_id") in
  let* _ := require (references a_id (applications s) application_id)
               (foreign_key_violation "messages" "application_id") in
  Ok (row, set_messages (messages s1 ++ [row]) s1).

(** The whole statement: [message_notification_trigger] fires
    AFTER INSERT ... FOR EACH ROW. *)
Definition insert_message (now : timestamptz) (uid : uuid) (sender receiver : uuid)
    (content : string) (application_id : option uuid) (s : db) : result db :=
  let* rs := insert_message_row uid sender receiver content application_id s in
  create_message_notification now uid (fst rs) (snd rs).

Definition set_m_read (v : option bool) (m : message) : message :=
  {| m_id := m_id m; m_sender_id := m_sender_id m; m_receiver_id := m_receiver_id m;
     m_content := m_content m; m_read := v; m_application_id := m_application_id m |}.

(** [UPDATE messages SET read = v WHERE id = target].  The rows touched are
    those the select and update policies let through (the WHERE clause
    reads the row); each new row must pass the update check and be visible
    to the select policies in its turn. *)
Definition update_messages (uid : uuid) (target : uuid) (v : option bool)
    (s : db) : result db :=
  let* _ := row_security Messages UPDATE in
  let hit m := N.eqb (m_id m) target
               && passes_using messages_policies SELECT s uid m
               && passes_using messages_policies UPDATE s uid m in
  let* _ := for_each (fun old (_ : unit) =>
               require (passes_check messages_policies UPDATE s uid (set_m_read v old)
                        && passes_using messages_policies SELECT s uid (set_m_read v old))
                       (rls_violation "messages"))
             (filter hit (messages s)) tt in
  Ok (set_messages (map (fun m => if hit m then set_m_read v m else m) (messages s)) s).

(** *** notifications *)

Definition set_n_read (v : option bool) (n : notification) : notification :=
  {| n_id := n_id n; n_user_id := n_user_id n; n_type := n_type n;
     n_title := n_title n; n_content := n_content n; n_read := v;
     n_created_at := n_created_at n; n_related_id := n_related_id n |}.

(** [UPDATE notifications SET read = v WHERE id = target]. *)
Definition update_notifications (uid : uuid) (target : uuid) (v : option bool)
    (s : db) : result db :=
  let* _ := row_security Notifications UPDATE in
  let hit n := N.eqb (n_id n) target
               && passes_using notifications_policies SELECT s uid n
               && passes_using notifications_policies UPDATE s uid n in
  let* _ := for_each (fun old (_ : unit) =>
               require (passes_check notifications_policies UPDATE s uid (set_n_read v old)
                        && passes_using notifications_policies SELECT s uid
                             (set_n_read v old))
                       (rls_violation "notifications"))
             (filter hit (notifications s)) tt in
  Ok (set_notifications
        (map (fun n => if hit n then set_n_read v n else n) (notifications s)) s).

(** *** applications *)

(** [INSERT INTO applications (job_offer_id, user_id)]; [estado] takes its
    default.  No trigger fires on insert. *)
Definition insert_application (uid : uuid) (job_offer_id user_id : option uuid)
    (s : db) : result db :=
  let* _ := row_security Applications INSERT in
  let (id, s1) := gen_random_uuid s in
  let row := {| a_id := id; a_job_offer_id := job_offer_id; a_user_id := user_id;
                a_estado := Some "pendiente" |} in
  let* _ := require (passes_check applications_policies INSERT s uid row)
               (rls_violation "applications") in
  let* _ := require (Sql.check_passes (applications_estado_check row))
               (check_violation "applications" "estado") in
  let* _ := require (references jo_id (job_offers s) job_offer_id)
               (foreign_key_violation "applications" "job_offer_id") in
  let* _ := require (references p_id (profiles s) user_id)
               (foreign_key_violation "applications" "user_id") in
  Ok (set_applications (applications s1 ++ [row]) s1).

Definition set_a_estado (v : option string) (a : application) : application :=
  {| a_id := a_id a; a_job_offer_id := a_job_offer_id a; a_user_id := a_user_id a;
     a_estado := v |}.

(** [UPDATE applications SET estado = v WHERE id = target];
    [application_notification_trigger] fires AFTER UPDATE ... FOR EACH ROW. *)
Definition update_applications (now : timestamptz) (uid : uuid) (target : uuid)
    (v : option string) (s : db) : result db :=
  let* _ := row_security Applications UPDATE in
  let hit a := N.eqb (a_id a) target
               && passes_using applications_policies SELECT s uid a
               && passes_using applications_policies UPDATE s uid a in
  let olds := filter hit (applications s) in
  let* _ := for_each (fun old (_ : unit) =>
               let* _ := require (passes_check applications_policies UPDATE s uid
                                    (set_a_estado v old)
                                  && passes_using applications_policies SELECT s uid
                                       (set_a_estado v old))
                                 (rls_violation "applications") in
               require (Sql.check_passes (applications_estado_check (set_a_estado v old)))
                       (check_violation "applications" "estado"))
             olds tt in
  let s1 := set_applications
              (map (fun a => if hit a then set_a_estado v a else a) (applications s)) s in
  for_each (fun old => create_application_notification now uid old (set_a_estado v old))
           olds s1.

(** *** selection_processes *)

(** The SET list of an update: a column is [None] when it is not assigned. *)
Record selection_process_set := {
  set_status : option string;
  set_required_assessments : option (option (list uuid)) }.

Definition assign_selection_process (u : selection_process_set)
    (p : selection_process) : selection_process :=
  {| sp_id := sp_id p; sp_job_offer_id := sp_job_offer_id p;
     sp_candidate_id := sp_candidate_id p;
     sp_status := match set_status u with Some v => v | None => sp_status p end;
     sp_required_assessments :=
       match set_required_assessments u with
       | Some v => v
       | None => sp_required_assessments p
       end;
     sp_completed_assessments := sp_completed_assessments p;
     sp_updated_at := sp_updated_at p |}.

(** [UPDATE selection_processes SET ... WHERE id = target].  BEFORE UPDATE:
    [update_selection_processes_updated_at].  AFTER UPDATE OF
    required_assessments: [assessment_invitation_trigger]; AFTER UPDATE OF
    status: [process_update_notification_trigger]; each fires only when its
    column is in the SET list, and in the order of their names. *)
Definition update_selection_processes (now : timestamptz) (uid : uuid) (target : uuid)
    (u : selection_process_set) (s : db) : result db :=
  let* _ := row_security Selection_processes UPDATE in
  let hit p := N.eqb (sp_id p) target
               && passes_using selection_processes_policies SELECT s uid p
               && passes_using selection_processes_policies UPDATE s uid p in
  let new_of p := update_updated_at_column_sp now (assign_selection_process u p) in
  let olds := filter hit (selection_processes s) in
  let* _ := for_each (fun old (_ : unit) =>
               let* _ := require (passes_check selection_processes_policies UPDATE s uid
                                    (new_of old)
                                  && passes_using selection_processes_policies SELECT s uid
                                       (new_of old))
                                 (rls_violation "selection_processes") in
               require (Sql.check_passes (selection_processes_status_check (new_of old)))
                       (check_violation "selection_processes" "status"))
             olds tt in
  let s1 := set_selection_processes
              (map (fun p => if hit p then new_of p else p) (selection_processes s)) s in
  for_each (fun old s' =>
      let* s'' := (if Sql.is_not_null (set_required_assessments u)
                   then create_assessment_invitation now uid old (new_of old) s'
                   else Ok s') in
      if Sql.is_not_null (set_status u)
      then create_process_update_notification now uid (new_of old) s''
      else Ok s'')
    olds s1.

(** *** candidate_evaluations *)

Definition set_ce_status (v : string) (ev : candidate_evaluation) : candidate_evaluation :=
  {| ce_id := ce_id ev; ce_stage_id := ce_stage_id ev;
     ce_evaluator_id := ce_evaluator_id ev; ce_score := ce_score ev;
     ce_status := v; ce_template_id := ce_template_id ev;
     ce_updated_at := ce_updated_at ev |}.

(** [UPDATE candidate_evaluations SET status = v WHERE id = target].
    BEFORE UPDATE: [update_candidate_evaluations_updated_at]; AFTER UPDATE
    OF status: [evaluation_complete_notification_trigger]. *)
Definition update_candidate_evaluations (now : timestamptz) (uid : uuid) (target : uuid)
    (v : string) (s : db) : result db :=
  let* _ := row_security Candidate_evaluations UPDATE in
  let hit ev := N.eqb (ce_id ev) target
                && passes_using candidate_evaluations_policies SELECT s uid ev
                && passes_using candidate_evaluations_policies UPDATE s uid ev in
  let new_of ev := update_updated_at_column_ce now (set_ce_status v ev) in
  let olds := filter hit (candidate_evaluations s) in
  let* _ := for_each (fun old (_ : unit) =>
               let* _ := require (passes_check candidate_evaluations_policies UPDATE s uid
                                    (new_of old)
                                  && passes_using candidate_evaluations_policies SELECT s uid
                                       (new_of old))
                                 (rls_violation "candidate_evaluations") in
               let* _ := require (Sql.check_passes
                                    (candidate_evaluations_score_check (new_of old)))
                                 (check_violation "candidate_evaluations" "score") in
               require (Sql.check_passes (candidate_evaluations_status_check (new_of old)))
                       (check_violation "candidate_evaluations" "status"))
             olds tt in
  let s1 := set_candidate_evaluations
              (map (fun ev => if hit ev then new_of ev else ev) (candidate_evaluations s)) s in
  for_each (fun old => notify_evaluation_complete now uid (new_of old)) olds s1.

(** *** evaluation_templates *)

(** A nullable key is among [keys]. *)
Definition key_among (keys : list uuid) (v : option uuid) : bool :=
  match v with
  | Some k => existsb (N.eqb k) keys
  | None => false
  end.

(** The rows left once those referencing the deleted [keys] are gone
    (ON DELETE CASCADE). *)
Definition cascade {R} (fk : R -> option uuid) (keys : list uuid) (rows : list R) : list R :=
  filter (fun r => negb (key_among keys (fk r))) rows.

(** The keys of the rows a cascade removes. *)
Definition cascaded_keys {R} (key : R -> uuid) (fk : R -> option uuid)
    (keys : list uuid) (rows : list R) : list uuid :=
  map key (filter (fun r => key_among keys (fk r)) rows).

(** [DELETE FROM evaluation_templates WHERE id = target].
    [candidate_evaluations.template_id] references the table with no
    action, so a template still used by an evaluation cannot go;
    [evaluation_criteria.template_id] is ON DELETE CASCADE, and the engine
    removes the criteria whatever the policies of that table say. *)
Definition delete_evaluation_templates (uid : uuid) (target : uuid) (s : db) : result db :=
  let* _ := row_security Evaluation_templates DELETE in
  let hit t := N.eqb (t_id t) target
               && passes_using evaluation_templates_policies SELECT s uid t
               && passes_using evaluation_templates_policies DELETE s uid t in
  let gone := map t_id (filter hit (evaluation_templates s)) in
  let* _ := require (negb (existsb (fun ev => key_among gone (ce_template_id ev))
                                   (candidate_evaluations s)))
               (foreign_key_violation "candidate_evaluations" "template_id") in
  Ok (set_templates_and_criteria
        (filter (fun t => negb (hit t)) (evaluation_templates s))
        (cascade c_template_id gone (evaluation_criteria s))
        s).

(** *** job_offers *)

(** [INSERT INTO job_offers (titulo, ..., estado, created_by)]: the columns
    of [values] but its [id]; the columns the row type leaves out are taken
    to satisfy their constraints.  AFTER INSERT, in the order of their
    names: [job_offer_activity_trigger], [job_offer_notification_trigger]. *)
Definition insert_job_offer (now : timestamptz) (uid : uuid) (values : job_offer)
    (w : store) : result store :=
  let* _ := row_security Job_offers INSERT in
  let (id, s1) := gen_random_uuid (base w) in
  let row := {| jo_id := id; jo_titulo := jo_titulo values;
                jo_estado := jo_estado values;
                jo_created_by := jo_created_by values |} in
  let* _ := require (passes_check job_offers_policies INSERT (base w) uid row)
               (rls_violation "job_offers") in
  let* _ := require (Sql.check_passes (job_offers_estado_check row))
               (check_violation "job_offers" "estado") in
  let* _ := require (references p_id (profiles (base w)) (jo_created_by row))
               (foreign_key_violation "job_offers" "created_by") in
  let w1 := {| base := set_job_offers (job_offers s1 ++ [row]) s1;
               activities := activities w; interviews := interviews w |} in
  let* w2 := log_job_offer_activity now uid (On_insert row) w1 in
  on_base (create_job_offer_notification now uid row) w2.

(** The SET list of an update of [job_offers]. *)
Record job_offer_set := {
  set_titulo : option string;
  set_estado : option (option string) }.

Definition assign_job_offer (u : job_offer_set) (o : job_offer) : job_offer :=
  {| jo_id := jo_id o;
     jo_titulo := match set_titulo u with Some v => v | None => jo_titulo o end;
     jo_estado := match set_estado u with Some v => v | None => jo_estado o end;
     jo_created_by := jo_created_by o |}.

(** [UPDATE job_offers SET ... WHERE id = target];
    [job_offer_activity_trigger] fires AFTER UPDATE. *)
Definition update_job_offers (now : timestamptz) (uid : uuid) (target : uuid)
    (u : job_offer_set) (w : store) : result store :=
  let* _ := row_security Job_offers UPDATE in
  let s := base w in
  let hit o := N.eqb (jo_id o) target
               && passes_using job_offers_policies SELECT s uid o
               && passes_using job_offers_policies UPDATE s uid o in
  let olds := filter hit (job_offers s) in
  let* _ := for_each (fun old (_ : unit) =>
               let* _ := require (passes_check job_offers_policies UPDATE s uid
                                    (assign_job_offer u old)
                                  && passes_using job_offers_policies SELECT s uid
                                       (assign_job_offer u old))
                                 (rls_violation "job_offers") in
               require (Sql.check_passes (job_offers_estado_check (assign_job_offer u old)))
                       (check_violation "job_offers" "estado"))
             olds tt in
  let w1 := {| base := set_job_offers
                         (map (fun o => if hit o then assign_job_offer u o else o)
                              (job_offers s)) s;
               activities := activities w; interviews := interviews w |} in
  for_each (fun old => log_job_offer_activity now uid
                         (On_update old (assign_job_offer u old)))
           olds w1.

(** [DELETE FROM job_offers WHERE id = target].  The rows referencing a
    deleted offer go with it, and so down the foreign keys: applications
    and their messages, selection processes with their stages, evaluations
    and interviews, activities.  Then [job_offer_activity_trigger] fires
    AFTER DELETE for each deleted row. *)
Definition delete_job_offers (now : timestamptz) (uid : uuid) (target : uuid)
    (w : store) : result store :=
  let* _ := row_security Job_offers DELETE in
  let s := base w in
  let hit o := N.eqb (jo_id o) target
               && passes_using job_offers_policies SELECT s uid o
               && passes_using job_offers_policies DELETE s uid o in
  let olds := filter hit (job_offers s) in
  let gone := map jo_id olds in
  let gone_applications := cascaded_keys a_id a_job_offer_id gone (applications s) in
  let gone_processes := cascaded_keys sp_id sp_job_offer_id gone (selection_processes s) in
  let gone_stages := cascaded_keys ps_id ps_process_id gone_processes (process_stages s) in
  let s1 :=
    {| profiles := profiles s;
       job_offers := filter (fun o => negb (hit o)) (job_offers s);
       applications := cascade a_job_offer_id gone (applications s);
       messages := cascade m_application_id gone_applications (messages s);
       notifications := notifications s;
       email_notifications := email_notifications s;
       selection_processes := cascade sp_job_offer_id gone (selection_processes s);
       process_stages := cascade ps_process_id gone_processes (process_stages s);
       candidate_evaluations := cascade ce_stage_id gone_stages (candidate_evaluations s);
       documents := documents s;
       evaluation_templates := evaluation_templates s;
       evaluation_criteria := evaluation_criteria s;
       next_uuid := next_uuid s |} in
  let w1 := {| base := s1;
               activities := cascade act_oferta_id gone (activities w);
               interviews := cascade iv_process_id gone_processes (interviews w) |} in
  for_each (fun old => log_job_offer_activity now uid (On_delete old)) olds w1.

(** *** documents and interviews *)

(** The SET list of an update of [documents]. *)
Record document_set := {
  set_file_url : option string;
  set_version : option Z;
  set_document_status : option string;
  set_expiry_date : option (option timestamptz) }.

Definition assign_document (u : document_set) (d : document) : document :=
  {| d_id := d_id d; d_title := d_title d; d_type := d_type d;
     d_file_url := match set_file_url u with Some v => v | None => d_file_url d end;
     d_version := match set_version u with Some v => v | None => d_version d end;
     d_status := match set_document_status u with Some v => v | None => d_status d end;
     d_expiry_date := match set_expiry_date u with
                      | Some v => v
                      | None => d_expiry_date d
                      end;
     d_user_id := d_user_id d |}.

Section To_char.

(** [to_char(timestamptz, format)] of the engine. *)
Variable to_char : timestamptz -> string -> string.

(** The literal is kept byte for byte as the migration has it. *)
Definition notify_document_expiry (now : timestamptz) (uid : uuid)
    (NEW : document) (s : db) : result db :=
  if Sql.is_true
       (Sql.and3 (Some (Sql.is_not_null (d_expiry_date NEW)))
          (Sql.and3 (Sql.gt3 (d_expiry_date NEW) (Some now))
                    (Sql.le3 (d_expiry_date NEW) (Some (now + interval_days 30)%Z))))
  then
    insert_into_notifications now uid
      (d_user_id NEW) "document_expiry" "Documento por vencer"
      (Sql.concat
         (Some ("El documento " ++ dquote ++ d_title NEW ++ dquote ++ " vencerÃ¡ el "))
         (option_map (fun t => to_char t "DD/MM/YYYY") (d_expiry_date NEW)))
      (Some (d_id NEW)) s
  else Ok s.

(** [INSERT INTO documents (title, type, file_url, version, status,
    expiry_date, user_id)]: the columns of [values] but its [id], which is
    generated.  The two CHECKs are tested in the order of their names,
    [documents_status_check] first.  [document_expiry_notification] fires
    AFTER INSERT. *)
Definition insert_document (now : timestamptz) (uid : uuid) (values : document)
    (s : db) : result db :=
  let* _ := row_security Documents INSERT in
  let* _ := require (int4 (d_version values)) (numeric_value_out_of_range "integer") in
  let (id, s1) := gen_random_uuid s in
  let row := {| d_id := id; d_title := d_title values; d_type := d_type values;
                d_file_url := d_file_url values; d_version := d_version values;
                d_status := d_status values; d_expiry_date := d_expiry_date values;
                d_user_id := d_user_id values |} in
  let* _ := require (passes_check documents_policies INSERT s uid row)
               (rls_violation "documents") in
  let* _ := require (Sql.check_passes (documents_status_check row))
               (check_violation "documents" "status") in
  let* _ := require (Sql.check_passes (documents_type_check row))
               (check_violation "documents" "type") in
  let* _ := require (references p_id (profiles s) (d_user_id row))
               (foreign_key_violation "documents" "user_id") in
  notify_document_expiry now uid row (set_documents (documents s1 ++ [row]) s1).

(** [UPDATE documents SET ... WHERE id = target].  BEFORE UPDATE,
    [update_documents_updated_at] stamps [updated_at], a column the row
    type leaves out.  AFTER UPDATE, in the order of their names:
    [document_expiry_notification], [document_status_notification]. *)
Definition update_documents (now : timestamptz) (uid : uuid) (target : uuid)
    (u : document_set) (s : db) : result db :=
  let* _ := row_security Documents UPDATE in
  let* _ := require (match set_version u with Some v => int4 v | None => true end)
               (numeric_value_out_of_range "integer") in
  let hit d := N.eqb (d_id d) target
               && passes_using documents_policies SELECT s uid d
               && passes_using documents_policies UPDATE s uid d in
  let olds := filter hit (documents s) in
  let* _ := for_each (fun old (_ : unit) =>
               let* _ := require (passes_check documents_policies UPDATE s uid
                                    (assign_document u old)
                                  && passes_using documents_policies SELECT s uid
                                       (assign_document u old))
                                 (rls_violation "documents") in
               let* _ := require (Sql.check_passes
                                    (documents_status_check (assign_document u old)))
                                 (check_violation "documents" "status") in
               require (Sql.check_passes (documents_type_check (assign_document u old)))
                       (check_violation "documents" "type"))
             olds tt in
  let s1 := set_documents
              (map (fun d => if hit d then assign_document u d else d) (documents s)) s in
  for_each (fun old s' =>
      let* s'' := notify_document_expiry now uid (assign_document u old) s' in
      notify_document_status_change now uid old (assign_document u old) s'')
    olds s1.

(** [create_interview_notification]: [INSERT INTO notifications ...
    SELECT ... FROM selection_processes sp WHERE sp.id = NEW.process_id],
    one row for each process found.  The rewriter expands the SELECT, then
    the policies of [notifications]. *)
Definition create_interview_notification (now : timestamptz) (uid : uuid)
    (NEW : interview) (s : db) : result db :=
  let* visible := select_selection_processes s uid in
  let* _ := row_security Notifications INSERT in
  for_each (fun sp s' =>
      store_notification now uid
        (sp_candidate_id sp) "interview_scheduled" "Entrevista programada"
        (Some ("Se ha programado una entrevista para el "
               ++ to_char (iv_scheduled_date NEW) "DD/MM/YYYY HH24:MI"))
        (Some (iv_id NEW)) s')
    (filter (fun sp => Sql.is_true (Sql.eq_uuid (Some (sp_id sp)) (iv_process_id NEW)))
            visible)
    s.

(** [INSERT INTO interviews (process_id, interviewer_id, scheduled_date,
    duration_minutes, status)]; [interview_notification_trigger] fires
    AFTER INSERT. *)
Definition insert_interview (now : timestamptz) (uid : uuid) (values : interview)
    (w : store) : result store :=
  let* _ := row_security Interviews INSERT in
  let* _ := require (int4 (iv_duration_minutes values))
               (numeric_value_out_of_range "integer") in
  let (id, s1) := gen_random_uuid (base w) in
  let row := {| iv_id := id; iv_process_id := iv_process_id values;
                iv_interviewer_id := iv_interviewer_id values;
                iv_scheduled_date := iv_scheduled_date values;
                iv_duration_minutes := iv_duration_minutes values;
                iv_status := iv_status values |} in
  let* _ := require (passes_check interviews_policies INSERT (base w) uid row)
               (rls_violation "interviews") in
  let* _ := require (Sql.check_passes (interviews_status_check row))
               (check_violation "interviews" "status") in
  let* _ := require (references sp_id (selection_processes (base w)) (iv_process_id row))
               (foreign_key_violation "interviews" "process_id") in
  let* _ := require (references p_id (profiles (base w)) (iv_interviewer_id row))
               (foreign_key_violation "interviews" "interviewer_id") in
  on_base (create_interview_notification now uid row)
    {| base := s1; activities := activities w; interviews := interviews w ++ [row] |}.

End To_char.

(** *** profiles *)

Section Profiles.

(** The constraints of the [profiles] table, which is created outside
    these migrations. *)
Variable profiles_constraints : profile -> bool.

(** [UPDATE profiles SET role = v WHERE id = target].  These migrations
    declare no trigger on [profiles]. *)
Definition update_profiles (uid : uuid) (target : uuid) (v : string)
    (s : db) : result db :=
  let* _ := row_security Profiles UPDATE in
  let hit p := N.eqb (p_id p) target
               && passes_using profiles_policies SELECT s uid p
               && passes_using profiles_policies UPDATE s uid p in
  let* _ := for_each (fun old (_ : unit) =>
               let* _ := require (passes_check profiles_policies UPDATE s uid
                                    (set_p_role v old)
                                  && passes_using profiles_policies SELECT s uid
                                       (set_p_role v old))
                                 (rls_violation "profiles") in
               require (profiles_constraints (set_p_role v old))
                       (check_violation "profiles" "role"))
             (filter hit (profiles s)) tt in
  Ok (set_profiles (map (fun p => if hit p then set_p_role v p else p) (profiles s)) s).

End Profiles.

(** ** Integrity assumptions and a sample database *)

(** The primary key of [profiles]. *)
Definition profiles_pk (s : db) : Prop := NoDup (map p_id (profiles s)).

(** One recruiter (1), two candidates (2, 3), an open and a closed offer,
    one application, one message and one notification still unread, one
    selection process with a stage and an evaluation, two templates. *)
Definition sample_db : db :=
  {| profiles :=
       [ {| p_id := 1; p_role := "rrhh"; p_nombre := Some "Ana"; p_apellidos := Some "Ruiz" |};
         {| p_id := 2; p_role := "candidato"; p_nombre := Some "Luis";
            p_apellidos := Some "Paz" |};
         {| p_id := 3; p_role := "candidato"; p_nombre := Some "Eva";
            p_apellidos := Some "Gil" |} ];
     job_offers :=
       [ {| jo_id := 10; jo_titulo := "Conductor"; jo_estado := Some "abierta";
            jo_created_by := Some 1%N |};
         {| jo_id := 11; jo_titulo := "Enfermero"; jo_estado := Some "cerrada";
            jo_created_by := Some 1%N |} ];
     applications :=
       [ {| a_id := 20; a_job_offer_id := Some 10%N; a_user_id := Some 2%N;
            a_estado := Some "pendiente" |} ];
     messages :=
       [ {| m_id := 30; m_sender_id := 1; m_receiver_id := 2; m_content := "Hola";
            m_read := Some false; m_application_id := Some 20%N |} ];
     notifications :=
       [ {| n_id := 40; n_user_id := Some 2%N; n_type := "message";
            n_title := "Nuevo mensaje"; n_content := Some "Mensaje de Ana Ruiz";
            n_read := Some false; n_created_at := 0%Z; n_related_id := Some 20%N |} ];
     email_notifications := [];
     selection_processes :=
       [ {| sp_id := 50; sp_job_offer_id := Some 10%N; sp_candidate_id := Some 2%N;
            sp_status := "pending"; sp_required_assessments := Some [];
            sp_completed_assessments := Some []; sp_updated_at := 0%Z |} ];
     process_stages :=
       [ {| ps_id := 60; ps_process_id := Some 50%N; ps_name := "Entrevista";
            ps_order_index := 1%Z |} ];
     candidate_evaluations :=
       [ {| ce_id := 70; ce_stage_id := Some 60%N; ce_evaluator_id := Some 1%N;
            ce_score := Some 80%Z; ce_status := "pending"; ce_template_id := Some 80%N;
            ce_updated_at := 0%Z |} ];
     documents := [];
     evaluation_templates :=
       [ {| t_id := 80; t_name := "Conductores"; t_position_type := "emergencias";
            t_max_score := 100; t_passing_score := 70; t_created_by := Some 1%N |};
         {| t_id := 81; t_name := "Sanitarios"; t_position_type := "sanitario";
            t_max_score := 100; t_passing_score := 70; t_created_by := Some 1%N |} ];
     evaluation_criteria :=
       [ {| c_id := 90; c_template_id := Some 80%N; c_name := "Experiencia";
            c_weight := 2; c_min_score := 0; c_max_score := 10; c_order_index := 1 |};
         {| c_id := 91; c_template_id := Some 81%N; c_name := "Titulos";
            c_weight := 1; c_min_score := 0; c_max_score := 10; c_order_index := 1 |};
         {| c_id := 92; c_template_id := Some 80%N; c_name := "Trato";
            c_weight := 1; c_min_score := 0; c_max_score := 10; c_order_index := 2 |} ];
     next_uuid := 100 |}.

(** The closed offer of [sample_db]. *)
Definition closed_offer : job_offer :=
  {| jo_id := 11; jo_titulo := "Enfermero"; jo_estado := Some "cerrada";
     jo_created_by := Some 1%N |}.

(** A document of candidate 2 as the upload form sends it. *)
Definition sample_document (expiry : option timestamptz) : document :=
  {| d_id := 0; d_title := "Carnet C"; d_type := "driver_license";
     d_file_url := "https://files/2/carnet.pdf"; d_version := 1; d_status := "pending";
     d_expiry_date := expiry; d_user_id := Some 2%N |}.

(** A stand-in for the engine's [to_char] where a closed term is run. *)
Definition sample_to_char (t : timestamptz) (fmt : string) : string := fmt.

(** The application of [sample_db]. *)
Definition sample_application : application :=
  {| a_id := 20; a_job_offer_id := Some 10%N; a_user_id := Some 2%N;
     a_estado := Some "pendiente" |}.

(** [UPDATE selection_processes SET required_assessments = v]. *)
Definition set_required (v : list uuid) : selection_process_set :=
  {| set_status := None; set_required_assessments := Some (Some v) |}.

(** [UPDATE selection_processes SET status = v]. *)
Definition set_status_to (v : string) : selection_process_set :=
  {| set_status := Some v; set_required_assessments := None |}.

(** The document row [insert_document] stores for [values]. *)
Definition stored_document (id : uuid) (values : document) : document :=
  {| d_id := id; d_title := d_title values; d_type := d_type values;
     d_file_url := d_file_url values; d_version := d_version values;
     d_status := d_status values; d_expiry_date := d_expiry_date values;
     d_user_id := d_user_id values |}.

(** [sample_db] with an empty log and no interview. *)
Definition sample_store : store :=
  {| base := sample_db; activities := []; interviews := [] |}.

(** An offer recruiter 1 is about to publish. *)
Definition new_offer : job_offer :=
  {| jo_id := 0; jo_titulo := "Tecnico"; jo_estado := Some "abierta";
     jo_created_by := Some 1%N |}.

(** [UPDATE job_offers SET estado = 'cerrada']. *)
Definition close_offer : job_offer_set :=
  {| set_titulo := None; set_estado := Some (Some "cerrada") |}.

(** What the upload form sends when a file is replaced. *)
Definition replace_file (url : string) (version : Z) : document_set :=
  {| set_file_url := Some url; set_version := Some version;
     set_document_status := Some "pending"; set_expiry_date := None |}.

(** [sample_db] holding one document of candidate 2, without expiry. *)
Definition stored_sample_document : document :=
  {| d_id := 95; d_title := "Carnet C"; d_type := "driver_license";
     d_file_url := "https://files/2/carnet.pdf"; d_version := 1; d_status := "pending";
     d_expiry_date := None; d_user_id := Some 2%N |}.

Definition sample_db_with_document : db :=
  set_documents [stored_sample_document] sample_db.

(** An interview recruiter 1 schedules. *)
Definition sample_interview (process : option uuid) : interview :=
  {| iv_id := 0; iv_process_id := process; iv_interviewer_id := Some 1%N;
     iv_scheduled_date := 1000; iv_duration_minutes := 45; iv_status := "scheduled" |}.

(** * Properties *)

(** ** Three-valued logic and list facts shared by the proofs *)

Lemma is_true_Some (b : bool) : Sql.is_true (Some b) = b.
Proof. now destruct b. Qed.

Lemma is_distinct_from_same (b : option bool) :
  Sql.is_distinct_from Bool.eqb b b = false.
Proof. now destruct b as [[|]|]. Qed.

Lemma eq_uuid_true (a : option uuid) (u : uuid) :
  Sql.is_true (Sql.eq_uuid a (Some u)) = true <-> a = Some u.
Proof.
  destruct a as [x|]; unfold Sql.eq_uuid, Sql.eq3.
  - rewrite is_true_Some, N.eqb_eq. split; congruence.
  - cbn. split; discriminate.
Qed.

(** Rows outside the target of an update are stored back as they were. *)
Lemma map_untouched {R} (hit : R -> bool) (f : R -> R) (l : list R) :
  filter hit l = [] -> map (fun x => if hit x then f x else x) l = l.
Proof.
  induction l as [|x l IH]; cbn; [reflexivity|].
  destruct (hit x); [discriminate|]. intro H. now rewrite IH.
Qed.

(** The role test of the policies reads the role stored in the profile. *)
Lemma stored_as_rrhh_role_of (s : db) (uid : uuid) (r : string) :
  profiles_pk s -> role_of s uid = Some r -> stored_as_rrhh s uid = String.eqb r "rrhh".
Proof.
  unfold profiles_pk, role_of, profile_of, stored_as_rrhh.
  induction (profiles s) as [|p l IH]; cbn; intros Hnd Hr; [discriminate|].
  inversion Hnd as [|? ? Hp Hl]; subst.
  destruct (N.eqb_spec (p_id p) uid) as [E|NE]; cbn in *.
  - injection Hr as <-.
    assert (Hno : existsb (fun q => N.eqb (p_id q) uid && String.eqb (p_role q) "rrhh") l
                  = false).
    { clear IH Hl Hnd. induction l as [|q l IHl]; cbn; [reflexivity|].
      destruct (N.eqb_spec (p_id q) uid) as [Eq|_]; cbn.
      - exfalso. apply Hp. cbn. left. congruence.
      - apply IHl. intro H. apply Hp. cbn. now right. }
    rewrite Hno. now rewrite orb_false_r.
  - now apply IH.
Qed.

Lemma commit_err (stmt : db -> result db) (s : db) (e : sql_error) :
  stmt s = Err e -> commit stmt s = s.
Proof. unfold commit. now intros ->. Qed.

Lemma commit_ok (stmt : db -> result db) (s s' : db) :
  stmt s = Ok s' -> commit stmt s = s'.
Proof. unfold commit. now intros ->. Qed.

Lemma commit_store_err (stmt : store -> result store) (w : store) (e : sql_error) :
  stmt w = Err e -> commit_store stmt w = w.
Proof. unfold commit_store. now intros ->. Qed.

(** ** The rewriter *)

(** The nesting of the policies is five tables deep at most: any larger
    bound gives the rewriter the same result. *)
Lemma fire_rules_depth (n : nat) (rel : relation) (c : command) :
  fire_rules (5 + n) [] rel c = row_security rel c.
Proof. destruct rel, c; reflexivity. Qed.

(** The statements on [messages], and the updates of [notifications], get
    past the rewriter: none of their policies has a subquery. *)
Lemma row_security_messages (c : command) : row_security Messages c = Ok tt.
Proof. now destruct c. Qed.

Lemma row_security_notifications_update : row_security Notifications UPDATE = Ok tt.
Proof. reflexivity. Qed.

Lemma row_security_documents_insert : row_security Documents INSERT = Ok tt.
Proof. reflexivity. Qed.

(** A subquery on [profiles] in the name of an identity never runs: the
    SELECT policy "RRHH can view all profiles" selects from [profiles]. *)
Lemma select_profiles_refused (s : db) (uid : uuid) :
  select_profiles s uid = Err (infinite_recursion "profiles").
Proof. reflexivity. Qed.

(** No row gets into [notifications], [email_notifications] or
    [activities] from a trigger function: their insert policies hold the
    role test. *)
Lemma insert_into_notifications_refused
    (now : timestamptz) (uid : uuid) (user_id : option uuid) (type title : string)
    (content : option string) (related_id : option uuid) (s : db) :
  insert_into_notifications now uid user_id type title content related_id s
  = Err (infinite_recursion "profiles").
Proof. reflexivity. Qed.

Lemma insert_into_email_notifications_refused
    (now : timestamptz) (uid : uuid) (rows : list email_values) (s : db) :
  insert_into_email_notifications now uid rows s = Err (infinite_recursion "profiles").
Proof. reflexivity. Qed.

Lemma insert_into_activities_refused
    (now : timestamptz) (uid : uuid) (tipo descripcion : string)
    (usuario_id oferta_id : option uuid) (w : store) :
  insert_into_activities now uid tipo descripcion usuario_id oferta_id w
  = Err (infinite_recursion "profiles").
Proof. reflexivity. Qed.

(** The statements on the tables RRHH manages stop in the rewriter,
    whoever issues them and whatever they name. *)
Lemma update_selection_processes_refused
    (now : timestamptz) (uid target : uuid) (u : selection_process_set) (s : db) :
  update_selection_processes now uid target u s = Err (infinite_recursion "profiles").
Proof. reflexivity. Qed.

Lemma update_applications_refused
    (now : timestamptz) (uid target : uuid) (v : option string) (s : db) :
  update_applications now uid target v s = Err (infinite_recursion "profiles").
Proof. reflexivity. Qed.

Lemma insert_application_refused (uid : uuid) (j u : option uuid) (s : db) :
  insert_application uid j u s = Err (infinite_recursion "profiles").
Proof. reflexivity. Qed.

Lemma update_candidate_evaluations_refused
    (now : timestamptz) (uid target : uuid) (v : string) (s : db) :
  update_candidate_evaluations now uid target v s = Err (infinite_recursion "profiles").
Proof. reflexivity. Qed.

Lemma delete_evaluation_templates_refused (uid target : uuid) (s : db) :
  delete_evaluation_templates uid target s = Err (infinite_recursion "profiles").
Proof. reflexivity. Qed.

Lemma update_documents_refused
    (to_char : timestamptz -> string -> string)
    (now : timestamptz) (uid target : uuid) (u : document_set) (s : db) :
  update_documents to_char now uid target u s = Err (infinite_recursion "profiles").
Proof. reflexivity. Qed.

(** The types the trigger functions of the selection processes and of the
    documents write are not among those the CHECK of [notifications]
    lists. *)
Lemma notification_type_not_listed (type : string) (n : notification) :
  existsb (String.eqb type) ["message"; "application_status"; "new_job_offer"] = false ->
  n_type n = type ->
  Sql.check_passes (notifications_type_check n) = false.
Proof.
  intros H <-. unfold notifications_type_check, Sql.in_text, Sql.in3.
  cbn [option_map]. now rewrite H.
Qed.

(** ** job_offers: who reads an offer *)

Lemma job_offers_select_spec (s : db) (uid : uuid) (o : job_offer) :
  passes_using job_offers_policies SELECT s uid o
  = stored_as_rrhh s uid || Sql.is_true (Sql.eq_text (jo_estado o) (Some "abierta")).
Proof.
  unfold passes_using, job_offers_policies. cbn.
  destruct (stored_as_rrhh s uid); cbn; [reflexivity | now rewrite orb_false_r].
Qed.

(** C1.  An identity whose profile has the role candidate reads no offer
    whose [estado] is 'cerrada': neither select policy of [job_offers] is
    true for it, and [SELECT] does not return the row.  That the offer was
    not created by the identity plays no part: no policy reads
    [created_by]. *)
Theorem C1_candidate_cannot_read_closed_offer
    (s : db) (i : uuid) (o : job_offer) :
  profiles_pk s ->
  role_of s i = Some "candidato" ->
  jo_estado o = Some "cerrada" ->
  jo_created_by o <> Some i ->
  using_of rrhh_can_manage_job_offers s i o = false
  /\ using_of everyone_can_view_active_job_offers s i o = false
  /\ passes_using job_offers_policies SELECT s i o = false
  /\ ~ In o (returned (select_job_offers s i)).
Proof.
  intros Hpk Hrole Hest _.
  assert (Hr : stored_as_rrhh s i = false).
  { now rewrite (stored_as_rrhh_role_of s i "candidato" Hpk Hrole). }
  assert (Hsel : passes_using job_offers_policies SELECT s i o = false).
  { rewrite job_offers_select_spec, Hr, Hest. reflexivity. }
  repeat split.
  - unfold using_of. cbn. now rewrite Hr.
  - unfold using_of. cbn. now rewrite Hest.
  - exact Hsel.
  - unfold select_job_offers.
    destruct (row_security Job_offers SELECT) as [[]|e]; cbn [bind returned].
    + rewrite filter_In. intros [_ H]. congruence.
    + intros [].
Qed.

Lemma C1_witness :
  using_of rrhh_can_manage_job_offers sample_db 2 closed_offer = false
  /\ using_of everyone_can_view_active_job_offers sample_db 2 closed_offer = false
  /\ passes_using job_offers_policies SELECT sample_db 2 closed_offer = false
  /\ ~ In closed_offer (returned (select_job_offers sample_db 2)).
Proof.
  apply (C1_candidate_cannot_read_closed_offer sample_db 2 closed_offer).
  - unfold profiles_pk. cbn.
    repeat (constructor; [cbn; intuition discriminate|]). constructor.
  - reflexivity.
  - reflexivity.
  - discriminate.
Defined.

(** ** messages and notifications: reading, and the [read] flag *)

Lemma messages_select_spec (s : db) (uid : uuid) (m : message) :
  passes_using messages_policies SELECT s uid m = true
  <-> uid = m_sender_id m \/ uid = m_receiver_id m.
Proof.
  unfold passes_using, messages_policies. cbn.
  rewrite orb_false_r, <- !N.eqb_eq, <- orb_true_iff.
  now destruct (N.eqb uid (m_sender_id m)), (N.eqb uid (m_receiver_id m)).
Qed.

(** The update policy of [messages] compares [read] with itself, so no
    stored row and no new row ever satisfies it. *)
Lemma messages_update_using_false (s : db) (uid : uuid) (m : message) :
  passes_using messages_policies UPDATE s uid m = false.
Proof.
  unfold passes_using, messages_policies. cbn.
  rewrite is_distinct_from_same.
  now destruct (N.eqb uid (m_receiver_id m)), (m_read m) as [[|]|].
Qed.

Lemma update_messages_changes_nothing
    (s : db) (uid target : uuid) (v : option bool) :
  exists s', update_messages uid target v s = Ok s' /\ messages s' = messages s.
Proof.
  unfold update_messages. rewrite row_security_messages. cbn [bind]. cbv zeta.
  set (hit := fun m : message => (N.eqb (m_id m) target && _ && _)%bool).
  assert (Hnil : filter hit (messages s) = []).
  { induction (messages s) as [|m l IH]; cbn; [reflexivity|].
    unfold hit at 1. rewrite messages_update_using_false, andb_false_r. exact IH. }
  rewrite Hnil. cbn. eexists. split; [reflexivity|]. cbn.
  now apply map_untouched.
Qed.

Lemma notifications_select_spec (s : db) (uid : uuid) (n : notification) :
  passes_using notifications_policies SELECT s uid n = true <-> n_user_id n = Some uid.
Proof.
  unfold passes_using, notifications_policies. cbn.
  rewrite orb_false_r. apply eq_uuid_true.
Qed.

(** The update check of [notifications] has the same self-comparison, on
    the new row. *)
Lemma notifications_update_check_false (s : db) (uid : uuid) (n : notification) :
  passes_check notifications_policies UPDATE s uid n = false.
Proof.
  unfold passes_check, notifications_policies. cbn.
  rewrite is_distinct_from_same.
  now destruct (Sql.eq_uuid (n_user_id n) (Some uid)) as [[|]|], (n_read n) as [[|]|].
Qed.

Lemma update_notifications_changes_nothing
    (s : db) (uid target : uuid) (v : option bool) :
  notifications (commit (update_notifications uid target v) s) = notifications s.
Proof.
  unfold commit, update_notifications.
  rewrite row_security_notifications_update. cbn [bind]. cbv zeta.
  set (hit := fun n : notification => (N.eqb (n_id n) target && _ && _)%bool).
  destruct (filter hit (notifications s)) as [|old olds] eqn:Hf.
  - cbn. now apply map_untouched.
  - cbn [for_each bind require].
    now rewrite notifications_update_check_false.
Qed.

(** C2.  A message is selected by its sender and its receiver and by no
    one else.  As for the [read] flag: the update policies of [messages]
    and of [notifications] are true of no row, so no identity, the
    recipient included, can set [read], from false to true or otherwise:
    the update of a message touches no row and the update of one's own
    notification is refused, whatever value is sent. *)
Theorem C2_read_flag_policies :
  (forall s uid m,
      passes_using messages_policies SELECT s uid m = true
      <-> uid = m_sender_id m \/ uid = m_receiver_id m)
  /\ (forall s uid m, passes_using messages_policies UPDATE s uid m = false)
  /\ (forall s uid target v,
        messages (commit (update_messages uid target v) s) = messages s)
  /\ (forall s uid n, passes_check notifications_policies UPDATE s uid n = false)
  /\ (forall s uid target v,
        notifications (commit (update_notifications uid target v) s) = notifications s).
Proof.
  split; [exact messages_select_spec|].
  split; [exact messages_update_using_false|].
  split.
  - intros s uid target v.
    destruct (update_messages_changes_nothing s uid target v) as (s' & H & Hm).
    now rewrite (commit_ok _ _ _ H).
  - split; [exact notifications_update_check_false|].
    exact update_notifications_changes_nothing.
Qed.

(** The receiver (2) of the unread message 30 marks it as read, as the
    messages panel does on opening a conversation: the statement succeeds
    and the message is still unread.  The owner (2) of notification 40 does
    the same: the statement is refused. *)
Example C2_recipient_cannot_mark_read :
  passes_using messages_policies SELECT sample_db 2
    {| m_id := 30; m_sender_id := 1; m_receiver_id := 2; m_content := "Hola";
       m_read := Some false; m_application_id := Some 20%N |} = true
  /\ map m_id (returned (select_messages sample_db 2)) = [30%N]
  /\ map m_id (returned (select_messages sample_db 3)) = []
  /\ map n_id (returned (select_notifications sample_db 2)) = [40%N]
  /\ map m_read (messages (commit (update_messages 2 30 (Some true)) sample_db))
     = [Some false]
  /\ update_notifications 2 40 (Some true) sample_db = Err (rls_violation "notifications").
Proof. repeat split. Qed.

(** ** applications: who inserts a row *)

Lemma users_can_create_applications_spec (s : db) (uid : uuid) (a : application) :
  with_check_of users_can_create_applications s uid a = true <-> a_user_id a = Some uid.
Proof. unfold with_check_of. cbn. apply eq_uuid_true. Qed.

(** C10.  The claim does not hold of the code.  "Users can create
    applications" accepts a row exactly when its [user_id] is the caller,
    and reads nothing else, the offer included.  But the check of an
    insert also holds the FOR ALL policy "RRHH can manage applications",
    whose role test selects from [profiles]: the rewriter stops on the
    policies of [profiles], and no insert into [applications] is ever
    made, by any identity, on an open offer or a closed one. *)
Theorem C10_application_insert_is_refused
    (s : db) (uid : uuid) (j u : option uuid) :
  (forall a, with_check_of users_can_create_applications s uid a = true
             <-> a_user_id a = Some uid)
  /\ sublinks_of Applications INSERT = [Profiles]
  /\ insert_application uid j u s = Err (infinite_recursion "profiles")
  /\ commit (insert_application uid j u) s = s.
Proof.
  split; [intro a; apply users_can_create_applications_spec|].
  split; [reflexivity|].
  split; [apply insert_application_refused|].
  exact (commit_err _ _ _ (insert_application_refused uid j u s)).
Qed.

(** Candidate 2 applies, in its own name, to the closed offer 11 and to
    the open offer 10. *)
Example C10_sample_run :
  insert_application 2 (Some (jo_id closed_offer)) (Some 2%N) sample_db
  = Err (infinite_recursion "profiles")
  /\ insert_application 2 (Some 10%N) (Some 2%N) sample_db
     = Err (infinite_recursion "profiles")
  /\ applications (commit (insert_application 2 (Some 11%N) (Some 2%N)) sample_db)
     = applications sample_db.
Proof. repeat split. Qed.

(** ** messages: the notification of the receiver *)

(** The trigger function of [messages] never gets its notification in:
    its subquery on [profiles] is refused. *)
Lemma create_message_notification_refused
    (now : timestamptz) (uid : uuid) (NEW : message) (s : db) :
  create_message_notification now uid NEW s = Err (infinite_recursion "profiles").
Proof. reflexivity. Qed.

(** C4, as stated, fails: candidate 2 sends a message, the message row
    passes its own policy and keys, the notification of the receiver is
    refused, and the message is not stored. *)
Lemma C4_counterexample_message_rolled_back :
  ~ (forall now uid sender receiver content app s row s1 e,
       insert_message_row uid sender receiver content app s = Ok (row, s1) ->
       create_message_notification now uid row s1 = Err e ->
       In row (messages (commit (insert_message now uid sender receiver content app) s))).
Proof.
  intro H.
  specialize (H 5%Z 2%N 2%N 1%N "Hola" None sample_db).
  cbv in H. specialize (H _ _ _ eq_refl eq_refl).
  destruct H as [H|[]]. discriminate.
Qed.

(** C4, amended.  When the trigger function fails to append the derived
    notification, the insert of the message fails with the same error and
    nothing is committed: the database is the one before the statement. *)
Theorem C4_fan_out_failure_aborts_the_write
    (now : timestamptz) (uid sender receiver : uuid) (content : string)
    (app : option uuid) (s s1 : db) (row : message) (e : sql_error) :
  insert_message_row uid sender receiver content app s = Ok (row, s1) ->
  create_message_notification now uid row s1 = Err e ->
  insert_message now uid sender receiver content app s = Err e
  /\ commit (insert_message now uid sender receiver content app) s = s.
Proof.
  intros Hrow Htrig.
  assert (H : insert_message now uid sender receiver content app s = Err e).
  { unfold insert_message. rewrite Hrow. cbn [bind fst snd]. exact Htrig. }
  split; [exact H | exact (commit_err _ _ _ H)].
Qed.

Lemma C4_witness :
  insert_message 5 2 2 1 "Hola" None sample_db = Err (infinite_recursion "profiles")
  /\ commit (insert_message 5 2 2 1 "Hola" None) sample_db = sample_db.
Proof.
  eapply (C4_fan_out_failure_aborts_the_write 5 2 2 1 "Hola" None sample_db).
  - reflexivity.
  - reflexivity.
Defined.

(** ** applications: the notification of a change of [estado] *)

(** C7.  The claim does not hold of the code.  For an application whose
    [estado] goes from 'pendiente' to 'aceptada' the trigger function
    reaches its INSERT, with the applicant as [user_id] and a content that
    ends with the new value, and the select policy of [notifications]
    would show such a row to the applicant alone.  But the row is never
    made: the policies of [applications] stop the UPDATE in the rewriter,
    for an rrhh identity as for any other, and the insert policy of
    [notifications] would stop the trigger's INSERT in the same way.  The
    [estado] stays as it was and no notification is created. *)
Theorem C7_status_notification_is_lost
    (now : timestamptz) (s : db) (h : uuid) (a : application) :
  a_estado a = Some "pendiente" ->
  Sql.is_true (Sql.neq3 String.eqb (a_estado (set_a_estado (Some "aceptada") a))
                 (a_estado a)) = true
  /\ application_status_content (set_a_estado (Some "aceptada") a)
     = Some ("Tu postulación ha sido " ++ "aceptada")
  /\ a_user_id (set_a_estado (Some "aceptada") a) = a_user_id a
  /\ (forall n i, n_user_id n = a_user_id a ->
        (passes_using notifications_policies SELECT s i n = true
         <-> a_user_id a = Some i))
  /\ (forall s', create_application_notification now h a
                   (set_a_estado (Some "aceptada") a) s'
                 = Err (infinite_recursion "profiles"))
  /\ update_applications now h (a_id a) (Some "aceptada") s
     = Err (infinite_recursion "profiles")
  /\ commit (update_applications now h (a_id a) (Some "aceptada")) s = s.
Proof.
  intro Hest.
  split; [cbn [set_a_estado a_estado]; now rewrite Hest|].
  split; [reflexivity|].
  split; [reflexivity|].
  split.
  { intros n i Hn. rewrite notifications_select_spec, Hn. reflexivity. }
  split.
  { intro s'. unfold create_application_notification.
    cbn [set_a_estado a_estado]. rewrite Hest.
    cbn [Sql.neq3 Sql.eq3 Sql.not3 option_map String.eqb Sql.is_true].
    apply insert_into_notifications_refused. }
  split; [apply update_applications_refused|].
  exact (commit_err _ _ _ (update_applications_refused now h (a_id a) _ s)).
Qed.

Lemma C7_witness :
  Sql.is_true (Sql.neq3 String.eqb
                 (a_estado (set_a_estado (Some "aceptada") sample_application))
                 (a_estado sample_application)) = true
  /\ application_status_content (set_a_estado (Some "aceptada") sample_application)
     = Some ("Tu postulación ha sido " ++ "aceptada")
  /\ a_user_id (set_a_estado (Some "aceptada") sample_application)
     = a_user_id sample_application
  /\ (forall n i, n_user_id n = a_user_id sample_application ->
        (passes_using notifications_policies SELECT sample_db i n = true
         <-> a_user_id sample_application = Some i))
  /\ (forall s', create_application_notification 5 1 sample_application
                   (set_a_estado (Some "aceptada") sample_application) s'
                 = Err (infinite_recursion "profiles"))
  /\ update_applications 5 1 (a_id sample_application) (Some "aceptada") sample_db
     = Err (infinite_recursion "profiles")
  /\ commit (update_applications 5 1 (a_id sample_application) (Some "aceptada"))
       sample_db = sample_db.
Proof.
  apply (C7_status_notification_is_lost 5 sample_db 1 sample_application).
  reflexivity.
Defined.

(** ** selection_processes: status and required assessments *)

(** C3.  The claim does not hold of the code: the update of [status] from
    'pending' to 'in_progress' is refused, for an rrhh identity as for any
    other.  The policies of [selection_processes] stop it in the rewriter;
    and the notification the trigger function would insert has the type
    'process_update', which the CHECK on [notifications.type] does not
    list.  No notification, no email and no change of status remain. *)
Theorem C3_process_update_is_refused
    (now : timestamptz) (s : db) (h : uuid) (p : selection_process) :
  update_selection_processes now h (sp_id p) (set_status_to "in_progress") s
  = Err (infinite_recursion "profiles")
  /\ commit (update_selection_processes now h (sp_id p) (set_status_to "in_progress")) s
     = s
  /\ (forall s', create_process_update_notification now h
                   (update_updated_at_column_sp now
                      (assign_selection_process (set_status_to "in_progress") p)) s'
                 = Err (infinite_recursion "profiles"))
  /\ (forall n, n_type n = "process_update" ->
                Sql.check_passes (notifications_type_check n) = false).
Proof.
  split; [apply update_selection_processes_refused|].
  split.
  { exact (commit_err _ _ _ (update_selection_processes_refused now h (sp_id p) _ s)). }
  split; [reflexivity|].
  intros n Hn. now apply (notification_type_not_listed "process_update").
Qed.

(** Recruiter 1 starts process 50 of the sample database. *)
Example C3_sample_run :
  update_selection_processes 5 1 50 (set_status_to "in_progress") sample_db
  = Err (infinite_recursion "profiles")
  /\ map sp_status
       (selection_processes
          (commit (update_selection_processes 5 1 50 (set_status_to "in_progress"))
             sample_db))
     = ["pending"]
  /\ notifications (commit (update_selection_processes 5 1 50
                              (set_status_to "in_progress")) sample_db)
     = notifications sample_db.
Proof. repeat split. Qed.

(** C6.  The claim does not hold of the code.  On an update of
    [required_assessments] from the empty array to [[a1]], and from [[a1]]
    to [[a1; a2]], the trigger function finds the arrays distinct and sets
    out to insert one invitation, the fixed 'assessment assigned' message
    addressed to the candidate, into [email_notifications]; from [[a1]] to
    the empty array its SELECT gives no row.  But no update of
    [selection_processes] gets as far as the trigger: the policies of the
    table stop it in the rewriter, whoever issues it and whatever else it
    sets, and the insert policy of [email_notifications] would stop the
    INSERT in the same way.  Neither table of notifications gets a row. *)
Theorem C6_assessment_invitation_is_lost
    (now : timestamptz) (s : db) (h a1 a2 : uuid) (p : selection_process) :
  let stored v := assign_selection_process (set_required v) p in
  let new_of v old :=
    update_updated_at_column_sp now (assign_selection_process (set_required v) old) in
  (Sql.is_distinct_from Sql.array_eqb
     (sp_required_assessments (new_of [a1] (stored [])))
     (sp_required_assessments (stored [])) = true
   /\ assessment_invitation_select (new_of [a1] (stored []))
      = [assessment_invitation (sp_candidate_id p)])
  /\ (Sql.is_distinct_from Sql.array_eqb
        (sp_required_assessments (new_of [a1; a2] (stored [a1])))
        (sp_required_assessments (stored [a1])) = true
      /\ assessment_invitation_select (new_of [a1; a2] (stored [a1]))
         = [assessment_invitation (sp_candidate_id p)])
  /\ assessment_invitation_select (new_of [] (stored [a1])) = []
  /\ (forall rows s',
        insert_into_email_notifications now h rows s'
        = Err (infinite_recursion "profiles"))
  /\ (forall target status v,
        update_selection_processes now h target
          {| set_status := status; set_required_assessments := Some v |} s
        = Err (infinite_recursion "profiles")
        /\ commit (update_selection_processes now h target
                     {| set_status := status; set_required_assessments := Some v |}) s
           = s).
Proof.
  cbv zeta.
  split; [split; reflexivity|].
  split.
  { split; [|reflexivity]. cbn. now rewrite N.eqb_refl. }
  split; [reflexivity|].
  split; [intros; apply insert_into_email_notifications_refused|].
  intros target status v.
  split; [apply update_selection_processes_refused|].
  exact (commit_err _ _ _ (update_selection_processes_refused now h target _ s)).
Qed.

(** Recruiter 1 assigns assessment 7 to process 50 of the sample database:
    refused, and both tables of notifications are as they were. *)
Example C6_sample_run :
  update_selection_processes 9 1 50 (set_required [7%N]) sample_db
  = Err (infinite_recursion "profiles")
  /\ email_notifications (commit (update_selection_processes 9 1 50 (set_required [7%N]))
                            sample_db) = []
  /\ notifications (commit (update_selection_processes 9 1 50 (set_required [7%N]))
                      sample_db) = notifications sample_db.
Proof. repeat split. Qed.

(** ** candidate_evaluations: the status 'completed' *)

(** C5.  The claim does not hold of the code: an update that sets the
    status of an evaluation to 'completed' is refused, and no email is
    appended.  The policies of [candidate_evaluations] stop it in the
    rewriter; the value is not one the CHECK on
    [candidate_evaluations.status] lists; and the trigger function, given
    such a row, raises on [NEW.process_id], a column the table does not
    have. *)
Theorem C5_completed_is_refused
    (now : timestamptz) (s : db) (h : uuid) (ev : candidate_evaluation) :
  update_candidate_evaluations now h (ce_id ev) "completed" s
  = Err (infinite_recursion "profiles")
  /\ commit (update_candidate_evaluations now h (ce_id ev) "completed") s = s
  /\ Sql.check_passes
       (candidate_evaluations_status_check
          (update_updated_at_column_ce now (set_ce_status "completed" ev))) = false
  /\ notify_evaluation_complete now h
       (update_updated_at_column_ce now (set_ce_status "completed" ev)) s
     = Err (undefined_field "new" "process_id").
Proof.
  split; [apply update_candidate_evaluations_refused|].
  split.
  { exact (commit_err _ _ _ (update_candidate_evaluations_refused now h (ce_id ev) _ s)). }
  split; reflexivity.
Qed.

(** Recruiter 1 completes evaluation 70 of the sample database. *)
Example C5_sample_run :
  update_candidate_evaluations 5 1 70 "completed" sample_db
  = Err (infinite_recursion "profiles")
  /\ map ce_status
       (candidate_evaluations
          (commit (update_candidate_evaluations 5 1 70 "completed") sample_db))
     = ["pending"]
  /\ email_notifications (commit (update_candidate_evaluations 5 1 70 "completed")
                            sample_db) = [].
Proof. repeat split. Qed.

(** ** evaluation_templates: the cascade to evaluation_criteria *)

(** ON DELETE CASCADE on [evaluation_criteria.template_id]: the criteria
    left when the template [k] goes are those of the other templates. *)
Lemma cascade_one_key (k : uuid) (l : list evaluation_criterion) (c : evaluation_criterion) :
  In c (cascade c_template_id [k] l) <-> In c l /\ c_template_id c <> Some k.
Proof.
  unfold cascade. rewrite filter_In, negb_true_iff, <- not_true_iff_false.
  unfold key_among. destruct (c_template_id c) as [x|]; cbn [existsb].
  - rewrite orb_false_r, N.eqb_eq. split; intros [H1 H2]; split; congruence.
  - split; intros [H1 H2]; split; congruence.
Qed.

(** C9.  The claim does not hold of the code.  The foreign key of
    [evaluation_criteria] would remove, with a template, exactly its own
    criteria.  But no template is ever deleted: the policies of
    [evaluation_templates] stop the DELETE in the rewriter, for an rrhh
    identity as for any other, and every template and criterion stays. *)
Theorem C9_template_delete_is_refused
    (s : db) (h : uuid) (t : evaluation_template) :
  (forall c, In c (cascade c_template_id [t_id t] (evaluation_criteria s))
             <-> In c (evaluation_criteria s) /\ c_template_id c <> Some (t_id t))
  /\ delete_evaluation_templates h (t_id t) s = Err (infinite_recursion "profiles")
  /\ commit (delete_evaluation_templates h (t_id t)) s = s.
Proof.
  split; [intro c; apply cascade_one_key|].
  split; [apply delete_evaluation_templates_refused|].
  exact (commit_err _ _ _ (delete_evaluation_templates_refused h (t_id t) s)).
Qed.

(** Recruiter 1 deletes template 81, which no evaluation uses: refused,
    and its criterion 91 stays. *)
Example C9_sample_run :
  delete_evaluation_templates 1 81 sample_db = Err (infinite_recursion "profiles")
  /\ map c_id (evaluation_criteria (commit (delete_evaluation_templates 1 81) sample_db))
     = [90%N; 91%N; 92%N]
  /\ map t_id (evaluation_templates (commit (delete_evaluation_templates 1 81) sample_db))
     = [80%N; 81%N].
Proof. repeat split. Qed.

(** ** documents: the notice of expiry *)

Lemma documents_insert_check_spec (s : db) (uid : uuid) (d : document) :
  passes_check documents_policies INSERT s uid d
  = Sql.is_true (Sql.eq_uuid (d_user_id d) (Some uid)).
Proof.
  unfold passes_check, documents_policies. cbn. now rewrite orb_false_r.
Qed.

(** Inside the window the trigger function reaches its INSERT, which is
    refused. *)
Lemma expiry_notification_is_refused
    (to_char : timestamptz -> string -> string)
    (now t : timestamptz) (uid : uuid) (NEW : document) (s : db) :
  d_expiry_date NEW = Some t ->
  (now < t <= now + interval_days 30)%Z ->
  notify_document_expiry to_char now uid NEW s = Err (infinite_recursion "profiles").
Proof.
  intros Ht [Hlo Hhi]. unfold notify_document_expiry. rewrite Ht.
  cbn [Sql.is_not_null Sql.gt3 Sql.le3 Sql.and3 option_map Sql.concat].
  assert (Hgt : Z.gtb t now = true) by (rewrite Z.gtb_ltb; now apply Z.ltb_lt).
  assert (Hle : Z.leb t (now + interval_days 30) = true) by now apply Z.leb_le.
  rewrite Hgt, Hle. cbn [Sql.is_true].
  apply insert_into_notifications_refused.
Qed.

(** Outside the window, or without a date, the trigger function does
    nothing. *)
Lemma expiry_notification_skipped
    (to_char : timestamptz -> string -> string)
    (now : timestamptz) (uid : uuid) (NEW : document) (s : db) :
  (forall t, d_expiry_date NEW = Some t -> (t <= now \/ now + interval_days 30 < t)%Z) ->
  notify_document_expiry to_char now uid NEW s = Ok s.
Proof.
  intro H. unfold notify_document_expiry.
  destruct (d_expiry_date NEW) as [t|]; [|reflexivity].
  cbn [Sql.is_not_null Sql.gt3 Sql.le3 Sql.and3].
  destruct (H t eq_refl) as [Hlo|Hhi].
  - assert (E : Z.gtb t now = false) by (rewrite Z.gtb_ltb; now apply Z.ltb_ge).
    now rewrite E.
  - assert (E : Z.leb t (now + interval_days 30) = false) by now apply Z.leb_gt.
    rewrite E. now destruct (Z.gtb t now).
Qed.

(** The insert of a document by its owner, well-formed for the table,
    comes down to the trigger function on the stored row. *)
Lemma insert_document_primary
    (to_char : timestamptz -> string -> string)
    (now : timestamptz) (s : db) (uid : uuid) (values : document) :
  d_user_id values = Some uid ->
  int4 (d_version values) = true ->
  Sql.check_passes (documents_type_check values) = true ->
  Sql.check_passes (documents_status_check values) = true ->
  references p_id (profiles s) (Some uid) = true ->
  insert_document to_char now uid values s
  = notify_document_expiry to_char now uid (stored_document (next_uuid s) values)
      (set_documents (documents s ++ [stored_document (next_uuid s) values])
         (set_next_uuid (N.succ (next_uuid s)) s)).
Proof.
  intros Hu Hv Hty Hst Hfk. unfold insert_document.
  rewrite row_security_documents_insert, Hv. cbn [bind require gen_random_uuid].
  fold (stored_document (next_uuid s) values).
  assert (Hck : passes_check documents_policies INSERT s uid
                  (stored_document (next_uuid s) values) = true).
  { rewrite documents_insert_check_spec. cbn [stored_document d_user_id].
    rewrite Hu. now apply eq_uuid_true. }
  assert (Hfk' : references p_id (profiles s)
                   (d_user_id (stored_document (next_uuid s) values)) = true).
  { cbn [stored_document d_user_id]. now rewrite Hu. }
  rewrite Hck, Hfk'.
  change (documents_type_check (stored_document (next_uuid s) values))
    with (documents_type_check values).
  change (documents_status_check (stored_document (next_uuid s) values))
    with (documents_status_check values).
  rewrite Hty, Hst. reflexivity.
Qed.

(** C8.  For a document its owner inserts, well-formed for the table:
    with [expiry_date] ten days ahead the claim does not hold of the code,
    the notification of type 'document_expiry' is refused and with it the
    insert, so no notification is created and no document stored; with
    [expiry_date] forty days ahead, and with no [expiry_date], the document
    is stored and no notification is created.  The notification is refused
    by the rewriter, on the insert policy of [notifications]; its type is
    not one the CHECK on [notifications.type] lists either. *)
Theorem C8_document_expiry_notice
    (to_char : timestamptz -> string -> string)
    (now : timestamptz) (s : db) (uid : uuid) (values : document) :
  d_user_id values = Some uid ->
  int4 (d_version values) = true ->
  Sql.check_passes (documents_type_check values) = true ->
  Sql.check_passes (documents_status_check values) = true ->
  references p_id (profiles s) (Some uid) = true ->
  (d_expiry_date values = Some (now + interval_days 10)%Z ->
   insert_document to_char now uid values s = Err (infinite_recursion "profiles")
   /\ commit (insert_document to_char now uid values) s = s)
  /\ (d_expiry_date values = Some (now + interval_days 40)%Z
      \/ d_expiry_date values = None ->
      exists s',
        insert_document to_char now uid values s = Ok s'
        /\ notifications s' = notifications s
        /\ map d_expiry_date (documents s')
           = (map d_expiry_date (documents s) ++ [d_expiry_date values])%list)
  /\ (forall n, n_type n = "document_expiry" ->
                Sql.check_passes (notifications_type_check n) = false).
Proof.
  intros Hu Hv Hty Hst Hfk.
  pose proof (insert_document_primary to_char now s uid values Hu Hv Hty Hst Hfk)
    as Hprim.
  split; [|split].
  - intro Hexp.
    assert (H : insert_document to_char now uid values s
                = Err (infinite_recursion "profiles")).
    { rewrite Hprim.
      apply (expiry_notification_is_refused to_char now (now + interval_days 10)).
      - exact Hexp.
      - unfold interval_days. lia. }
    split; [exact H | exact (commit_err _ _ _ H)].
  - intro Hexp. rewrite Hprim, expiry_notification_skipped.
    + eexists. split; [reflexivity|]. split; [reflexivity|].
      cbn. now rewrite map_app.
    + cbn [stored_document d_expiry_date]. intros t Ht.
      destruct Hexp as [Hexp|Hexp]; rewrite Hexp in Ht; [|discriminate].
      injection Ht as <-. right. unfold interval_days. lia.
  - intros n Hn. now apply (notification_type_not_listed "document_expiry").
Qed.

Lemma C8_witness :
  (insert_document sample_to_char 0 2
     (sample_document (Some (0 + interval_days 10)%Z)) sample_db
   = Err (infinite_recursion "profiles")
   /\ commit (insert_document sample_to_char 0 2
                (sample_document (Some (0 + interval_days 10)%Z))) sample_db
      = sample_db)
  /\ (exists s',
        insert_document sample_to_char 0 2
          (sample_document (Some (0 + interval_days 40)%Z)) sample_db = Ok s'
        /\ notifications s' = notifications sample_db
        /\ map d_expiry_date (documents s')
           = (map d_expiry_date (documents sample_db)
              ++ [Some (0 + interval_days 40)%Z])%list)
  /\ (exists s',
        insert_document sample_to_char 0 2 (sample_document None) sample_db = Ok s'
        /\ notifications s' = notifications sample_db
        /\ map d_expiry_date (documents s')
           = (map d_expiry_date (documents sample_db) ++ [None])%list).
Proof.
  split; [|split].
  - apply (proj1 (C8_document_expiry_notice sample_to_char 0 sample_db 2
                    (sample_document (Some (0 + interval_days 10)%Z))
                    eq_refl eq_refl eq_refl eq_refl eq_refl)).
    reflexivity.
  - apply (proj1 (proj2 (C8_document_expiry_notice sample_to_char 0 sample_db 2
                           (sample_document (Some (0 + interval_days 40)%Z))
                           eq_refl eq_refl eq_refl eq_refl eq_refl))).
    now left.
  - apply (proj1 (proj2 (C8_document_expiry_notice sample_to_char 0 sample_db 2
                           (sample_document None)
                           eq_refl eq_refl eq_refl eq_refl eq_refl))).
    now right.
Defined.

(** Candidate 2 uploads a licence that expires in ten days, and recruiter
    1 a title of their own: both inserts are refused. *)
Example C8_sample_run :
  insert_document sample_to_char 0 2
    (sample_document (Some (interval_days 10))) sample_db
  = Err (infinite_recursion "profiles")
  /\ insert_document sample_to_char 0 1
       {| d_id := 0; d_title := "Titulo"; d_type := "other_title";
          d_file_url := "https://files/1/titulo.pdf"; d_version := 1;
          d_status := "pending"; d_expiry_date := Some (interval_days 10);
          d_user_id := Some 1%N |} sample_db
     = Err (infinite_recursion "profiles").
Proof. split; reflexivity. Qed.

(** * Further properties of the statements *)

(** ** The policies with a subquery *)


(** The statements that get through: those on [messages], the reads,
    updates and deletes of [notifications], the inserts into [documents]
    and into [profiles]. *)
Example statements_past_the_rewriter :
  filter (fun rc => match row_security (fst rc) (snd rc) with
                    | Ok _ => true
                    | Err _ => false
                    end)
         (list_prod all_relations [SELECT; INSERT; UPDATE; DELETE])
  = [ (Profiles, INSERT);
      (Messages, SELECT); (Messages, INSERT); (Messages, UPDATE); (Messages, DELETE);
      (Notifications, SELECT); (Notifications, UPDATE); (Notifications, DELETE);
      (Documents, INSERT) ].
Proof. reflexivity. Qed.

(** ** selection_processes: an update that names [status] *)

(** X1.  Every update of [selection_processes] that lists [status] in its
    SET list is refused, whatever the new status and whatever else it
    sets, and nothing of it is committed: the policies of the table stop
    it in the rewriter, and the notification
    [create_process_update_notification] inserts is never accepted. *)
Theorem status_update_always_refused
    (now : timestamptz) (s : db) (h target : uuid)
    (v : string) (r : option (option (list uuid))) :
  update_selection_processes now h target
    {| set_status := Some v; set_required_assessments := r |} s
  = Err (infinite_recursion "profiles")
  /\ commit (update_selection_processes now h target
               {| set_status := Some v; set_required_assessments := r |}) s = s
  /\ (forall NEW s', exists e, create_process_update_notification now h NEW s' = Err e).
Proof.
  split; [apply update_selection_processes_refused|].
  split.
  { exact (commit_err _ _ _ (update_selection_processes_refused now h target _ s)). }
  intros NEW s'. eexists. reflexivity.
Qed.

(** ** Tables managed by RRHH: what an identity can write *)

(** X2.  No identity, rrhh or not, changes anything in the tables RRHH
    manages: its UPDATE of an application, of a selection process or of a
    candidate evaluation, and its DELETE of an evaluation template, are
    refused in the rewriter and leave the database as it was. *)
Theorem managed_tables_are_never_written
    (now : timestamptz) (s : db) (uid ta tp te tt : uuid)
    (v : option string) (u : selection_process_set) (st : string) :
  (update_applications now uid ta v s = Err (infinite_recursion "profiles")
   /\ commit (update_applications now uid ta v) s = s)
  /\ (update_selection_processes now uid tp u s = Err (infinite_recursion "profiles")
      /\ commit (update_selection_processes now uid tp u) s = s)
  /\ (update_candidate_evaluations now uid te st s = Err (infinite_recursion "profiles")
      /\ commit (update_candidate_evaluations now uid te st) s = s)
  /\ (delete_evaluation_templates uid tt s = Err (infinite_recursion "profiles")
      /\ commit (delete_evaluation_templates uid tt) s = s).
Proof.
  repeat split;
    try reflexivity;
    first [ exact (commit_err _ _ _ (update_applications_refused now uid ta v s))
          | exact (commit_err _ _ _ (update_selection_processes_refused now uid tp u s))
          | exact (commit_err _ _ _ (update_candidate_evaluations_refused now uid te st s))
          | exact (commit_err _ _ _ (delete_evaluation_templates_refused uid tt s)) ].
Qed.

(** ** candidate_evaluations: what an update of [status] does *)

(** X5.  No update of an evaluation, by any identity and to any status,
    ever appends an email or a notification: the statement is refused and
    undone. *)
Theorem evaluation_update_never_notifies
    (now : timestamptz) (s : db) (uid target : uuid) (v : string) :
  email_notifications (commit (update_candidate_evaluations now uid target v) s)
  = email_notifications s
  /\ notifications (commit (update_candidate_evaluations now uid target v) s)
     = notifications s.
Proof.
  rewrite (commit_err _ _ _ (update_candidate_evaluations_refused now uid target v s)).
  now split.
Qed.

(** ** messages: who gets a message stored *)

Lemma insert_message_refused
    (now : timestamptz) (uid sender receiver : uuid) (content : string)
    (app : option uuid) (s : db) :
  exists e, insert_message now uid sender receiver content app s = Err e.
Proof.
  unfold insert_message.
  destruct (insert_message_row uid sender receiver content app s) as [[row s1]|e].
  - cbn [bind fst snd]. rewrite create_message_notification_refused. now eexists.
  - cbn [bind]. now exists e.
Qed.

(** X7.  No message is ever stored, whoever sends it: a row sent in the
    name of another is refused by the insert policy of [messages], and a
    row the table accepts is undone when [create_message_notification]
    raises on its subquery on [profiles]. *)
Theorem message_never_stored
    (now : timestamptz) (uid sender receiver : uuid) (content : string)
    (app : option uuid) (s : db) :
  (exists e, insert_message now uid sender receiver content app s = Err e)
  /\ commit (insert_message now uid sender receiver content app) s = s.
Proof.
  destruct (insert_message_refused now uid sender receiver content app s) as [e He].
  split; [now exists e | exact (commit_err _ _ _ He)].
Qed.

(** Recruiter 1 writes to candidate 2 about application 20; candidate 2
    writes in the name of recruiter 1, and to an identity without profile. *)
Example message_sample_run :
  insert_message 5 1 1 2 "Hola" (Some 20%N) sample_db
  = Err (infinite_recursion "profiles")
  /\ insert_message 5 2 1 3 "Hola" None sample_db = Err (rls_violation "messages")
  /\ insert_message 5 2 2 9 "Hola" None sample_db
     = Err (foreign_key_violation "messages" "receiver_id").
Proof. repeat split. Qed.

(** ** documents: the window of the expiry notice *)

(** X10.  For a document its owner inserts, well-formed for the table,
    with an expiry date [t]: the insert is refused exactly when
    [now < t <= now + 30 days], the bounds of the trigger function (at
    [t = now] the document is stored, at [t = now + 30 days] it is not);
    outside the window the document is stored as sent and no notification
    is made. *)
Theorem document_expiry_window
    (to_char : timestamptz -> string -> string)
    (now t : timestamptz) (s : db) (uid : uuid) (values : document) :
  d_user_id values = Some uid ->
  int4 (d_version values) = true ->
  Sql.check_passes (documents_type_check values) = true ->
  Sql.check_passes (documents_status_check values) = true ->
  references p_id (profiles s) (Some uid) = true ->
  d_expiry_date values = Some t ->
  ((now < t <= now + interval_days 30)%Z ->
   exists e, insert_document to_char now uid values s = Err e)
  /\ ((t <= now \/ now + interval_days 30 < t)%Z ->
      exists s',
        insert_document to_char now uid values s = Ok s'
        /\ notifications s' = notifications s
        /\ documents s' = (documents s ++ [stored_document (next_uuid s) values])%list).
Proof.
  intros Hu Hv Hty Hst Hfk Ht.
  rewrite (insert_document_primary to_char now s uid values Hu Hv Hty Hst Hfk).
  split.
  - intro Hw.
    rewrite (expiry_notification_is_refused to_char now t); [now eexists | exact Ht | exact Hw].
  - intro Hout. rewrite expiry_notification_skipped.
    + eexists. split; [reflexivity|]. split; reflexivity.
    + cbn [stored_document d_expiry_date]. rewrite Ht. intros t' [= <-]. exact Hout.
Qed.

Lemma document_expiry_window_witness :
  (exists e,
      insert_document sample_to_char 7 2
        (sample_document (Some (7 + interval_days 30)%Z)) sample_db = Err e)
  /\ (exists s',
        insert_document sample_to_char 7 2 (sample_document (Some 7%Z)) sample_db = Ok s'
        /\ notifications s' = notifications sample_db
        /\ documents s' =
           (documents sample_db
            ++ [stored_document (next_uuid sample_db) (sample_document (Some 7%Z))])%list).
Proof.
  split.
  - apply (proj1 (document_expiry_window sample_to_char 7 (7 + interval_days 30)
                    sample_db 2 (sample_document (Some (7 + interval_days 30)%Z))
                    eq_refl eq_refl eq_refl eq_refl eq_refl eq_refl)).
    unfold interval_days. lia.
  - apply (proj2 (document_expiry_window sample_to_char 7 7
                    sample_db 2 (sample_document (Some 7%Z))
                    eq_refl eq_refl eq_refl eq_refl eq_refl eq_refl)).
    left. lia.
Defined.

(** A version that does not fit the column is refused before the policy
    is asked; a status outside its CHECK is named before the type. *)
Example document_insert_order :
  insert_document sample_to_char 0 2
    {| d_id := 0; d_title := "Carnet C"; d_type := "driver_license";
       d_file_url := "https://files/2/carnet.pdf"; d_version := 2147483648;
       d_status := "pending"; d_expiry_date := None; d_user_id := Some 3%N |} sample_db
  = Err (numeric_value_out_of_range "integer")
  /\ insert_document sample_to_char 0 2
       {| d_id := 0; d_title := "Carnet C"; d_type := "licence";
          d_file_url := "https://files/2/carnet.pdf"; d_version := 1;
          d_status := "new"; d_expiry_date := None; d_user_id := Some 2%N |} sample_db
     = Err (check_violation "documents" "status").
Proof. split; reflexivity. Qed.

(** ** job_offers: reads and writes *)

(** X12.  No identity lists the job offers, the open ones included: the
    FOR ALL policy "RRHH can manage job offers" is added to every SELECT
    on the table, and its role test stops the rewriter. *)
Theorem job_offers_never_listed (s : db) (uid : uuid) :
  select_job_offers s uid = Err (infinite_recursion "profiles")
  /\ returned (select_job_offers s uid) = [].
Proof. split; reflexivity. Qed.

Lemma delete_job_offers_refused (now : timestamptz) (uid target : uuid) (w : store) :
  delete_job_offers now uid target w = Err (infinite_recursion "profiles").
Proof. reflexivity. Qed.

(** X13.  No statement ever deletes a job offer: every DELETE on the
    table is refused, and the database is left as it is. *)
Theorem job_offer_never_deleted
    (now : timestamptz) (uid target : uuid) (w : store) :
  commit_store (delete_job_offers now uid target) w = w.
Proof.
  exact (commit_store_err _ _ _ (delete_job_offers_refused now uid target w)).
Qed.

(** On the sample database: recruiter 1 deletes the open offer 10. *)
Example job_offer_delete_sample_run :
  delete_job_offers 5 1 10 sample_store = Err (infinite_recursion "profiles").
Proof. reflexivity. Qed.

(** X14.  No identity writes a job offer, rrhh or not: INSERT, UPDATE and
    DELETE are refused in the rewriter, before any row is checked and
    before any trigger runs, and leave the database unchanged. *)
Theorem job_offers_never_written
    (now : timestamptz) (uid target : uuid) (values : job_offer)
    (u : job_offer_set) (w : store) :
  (insert_job_offer now uid values w = Err (infinite_recursion "profiles")
   /\ commit_store (insert_job_offer now uid values) w = w)
  /\ (update_job_offers now uid target u w = Err (infinite_recursion "profiles")
      /\ commit_store (update_job_offers now uid target u) w = w)
  /\ (delete_job_offers now uid target w = Err (infinite_recursion "profiles")
      /\ commit_store (delete_job_offers now uid target) w = w).
Proof.
  assert (Hi : insert_job_offer now uid values w = Err (infinite_recursion "profiles"))
    by reflexivity.
  assert (Hu : update_job_offers now uid target u w = Err (infinite_recursion "profiles"))
    by reflexivity.
  pose proof (delete_job_offers_refused now uid target w) as Hd.
  repeat split; try assumption; now apply commit_store_err with (e := infinite_recursion "profiles").
Qed.

(** Recruiter 1 publishes a new offer and closes offer 10. *)
Example job_offer_write_sample_run :
  insert_job_offer 5 1 new_offer sample_store = Err (infinite_recursion "profiles")
  /\ update_job_offers 5 1 10 close_offer sample_store
     = Err (infinite_recursion "profiles").
Proof. split; reflexivity. Qed.

(** ** documents: updates *)

(** X18.  The status of a stored document never changes, and no update of
    a document ever makes a notification: whoever issues the update and
    whatever it sets, the statement is refused and undone. *)
Theorem document_status_never_changes
    (to_char : timestamptz -> string -> string)
    (now : timestamptz) (uid target : uuid) (u : document_set) (s : db) :
  map d_status (documents (commit (update_documents to_char now uid target u) s))
  = map d_status (documents s)
  /\ notifications (commit (update_documents to_char now uid target u) s)
     = notifications s.
Proof.
  rewrite (commit_err _ _ _ (update_documents_refused to_char now uid target u s)).
  now split.
Qed.


(** The owner (2) of document 95 replaces its file. *)
Example document_update_sample_run :
  update_documents sample_to_char 5 2 95 (replace_file "https://files/2/carnet2.pdf" 2)
    sample_db_with_document
  = Err (infinite_recursion "profiles").
Proof. reflexivity. Qed.

(** ** interviews *)

(** X20.  No interview is ever stored, with a process or without one: the
    insert is refused in the rewriter on "RRHH can manage interviews",
    whoever issues it. *)
Theorem interview_never_stored
    (to_char : timestamptz -> string -> string)
    (now : timestamptz) (uid : uuid) (values : interview) (w : store) :
  insert_interview to_char now uid values w = Err (infinite_recursion "profiles")
  /\ commit_store (insert_interview to_char now uid values) w = w.
Proof.
  assert (H : insert_interview to_char now uid values w
              = Err (infinite_recursion "profiles")) by reflexivity.
  split; [exact H | exact (commit_store_err _ _ _ H)].
Qed.

(** Recruiter 1 schedules an interview for process 50. *)
Example interview_sample_run :
  insert_interview sample_to_char 5 1 (sample_interview (Some 50%N)) sample_store
  = Err (infinite_recursion "profiles").
Proof. reflexivity. Qed.

(** ** profiles: who can change a role *)


(** Candidate 2 sets its own role to 'rrhh'. *)
Example role_update_sample_run :
  update_profiles (fun _ => true) 2 2 "rrhh" sample_db
  = Err (infinite_recursion "profiles")
  /\ stored_as_rrhh (commit (update_profiles (fun _ => true) 2 2 "rrhh") sample_db) 2 = false.
Proof. split; reflexivity. Qed.
